(** * The evmone-go host layer ([core/evmone-go/host_impl.go])

    A shallow embedding of [HostImpl], the call/create host that sits
    between the bytecode interpreter and the account/storage backend, and
    the properties of its storage classification, call and create paths,
    self-destruct and logging.

    Conventions.
    - A [common.Address] (20 bytes), a [common.Hash] (32 bytes) and a
      [uint256.Int] are the big-endian number they denote, as [Z]; the
      conversions [SetBytes32] and [Bytes32] between hash and integer are
      therefore the identity.
    - [uint64] and [int64] arithmetic is written with its wrap-around.
    - The Go [error] interface is [option VMError], [nil] being [None].
    - The host mutates the backend [h.ibs] in place; here a host method is
      a function of the backend that yields its result, the backend it
      leaves and the trace of the operations it issued.
    - What the host takes from packages that are not among the sources
      (the hash and the address derivations of [crypto], the constants of
      [params], the precompiles and the interpreter) is a parameter. *)

From Stdlib Require Import ZArith Lia List Bool.
From stdpp Require Import base gmap list.

Open Scope Z_scope.

(** ** Machine integers *)

Definition to_uint64 (z : Z) : Z := z mod 2 ^ 64.
Definition to_int64 (z : Z) : Z := (z + 2 ^ 63) mod 2 ^ 64 - 2 ^ 63.
Definition to_uint256 (z : Z) : Z := z mod 2 ^ 256.

Definition MaxUint64 : Z := 2 ^ 64 - 1.

Definition is_uint64 (z : Z) : Prop := 0 <= z < 2 ^ 64.
Definition is_int64 (z : Z) : Prop := - 2 ^ 63 <= z < 2 ^ 63.

(** ** Data of the host interface *)

Abbreviation Address := Z (only parsing).
Abbreviation Hash := Z (only parsing).
Abbreviation uint256 := Z (only parsing).
Abbreviation bytes := (list Byte.byte) (only parsing).

(** [common.Address{}] and [common.Hash{}]. *)
Definition zeroAddress : Address := 0.
Definition zeroHash : Hash := 0.

(** Modelled from the spec: the message kinds ([MessageKind] of the data
    model); the declaration of [CallKind] is not among the sources. *)
Inductive CallKind :=
| Call | CallCode | DelegateCall | StaticCall | Create | Create2 | EofCreate.

Definition CallKind_eqb (a b : CallKind) : bool :=
  match a, b with
  | Call, Call | CallCode, CallCode | DelegateCall, DelegateCall
  | StaticCall, StaticCall | Create, Create | Create2, Create2
  | EofCreate, EofCreate => true
  | _, _ => false
  end.

(** Modelled from the spec: the nine storage statuses of the data model. *)
Inductive StorageStatus :=
| StorageAssigned | StorageAdded | StorageDeleted | StorageModified
| StorageDeletedAdded | StorageModifiedDeleted | StorageDeletedRestored
| StorageAddedDeleted | StorageModifiedRestored.

Inductive AccessStatus := ColdAccess | WarmAccess.

(** The errors of package [vm] the host names, and the faults the
    interpreter or a precompile bubbles up. *)
Inductive VMError :=
| ErrInsufficientBalance
| ErrNonceUintOverflow
| ErrContractAddressCollision
| ErrMaxCodeSizeExceeded
| ErrInvalidCode
| ErrCodeStoreOutOfGas
| ErrExecutionReverted
| ErrOutOfGas
| ErrFault (code : Z).

Definition VMError_eqb (a b : VMError) : bool :=
  match a, b with
  | ErrInsufficientBalance, ErrInsufficientBalance
  | ErrNonceUintOverflow, ErrNonceUintOverflow
  | ErrContractAddressCollision, ErrContractAddressCollision
  | ErrMaxCodeSizeExceeded, ErrMaxCodeSizeExceeded
  | ErrInvalidCode, ErrInvalidCode
  | ErrCodeStoreOutOfGas, ErrCodeStoreOutOfGas
  | ErrExecutionReverted, ErrExecutionReverted
  | ErrOutOfGas, ErrOutOfGas => true
  | ErrFault c, ErrFault d => c =? d
  | _, _ => false
  end.

(** [err == e] and [err != e] on the [error] interface. *)
Definition err_is (err : option VMError) (e : VMError) : bool :=
  match err with
  | Some e' => VMError_eqb e' e
  | None => false
  end.

Definition is_nil (err : option VMError) : bool :=
  match err with None => true | Some _ => false end.

(** [Revision], an integer enumeration. Its declaration is not among the
    sources: the numbers behind the names the host uses are a parameter. *)
Abbreviation Revision := Z (only parsing).

Record Revisions := mkRevisions {
  Frontier : Revision;
  Petersburg : Revision;
  Istanbul : Revision;
  Berlin : Revision;
  London : Revision;
  Shanghai : Revision;
  Cancun : Revision;
  Prague : Revision
}.

(** [chain.Rules], the active fork-rule set. *)
Record Rules := mkRules {
  IsHomestead : bool;
  IsSpuriousDragon : bool;
  IsPetersburg : bool;
  IsIstanbul : bool;
  IsBerlin : bool;
  IsLondon : bool;
  IsShanghai : bool;
  IsCancun : bool;
  IsPrague : bool;
  IsAura : bool
}.

(** [vm.Config], what the host reads of it: the [RestoreState] field and
    the method [HasEip3860], whose definition is not among the sources. *)
Record Config := mkConfig {
  RestoreState : bool;
  HasEip3860 : Rules -> bool
}.

(** Package [params], the constants the host reads; their declarations are
    not among the sources, so their values are a parameter. *)
Record Params := mkParams {
  MaxCodeSize : Z;
  CreateDataGas : Z
}.

(** [types.Log], the fields [EmitLog] sets. *)
Record Log := mkLog {
  LogAddress : Address;
  Topics : list Hash;
  Data : bytes;
  LogBlockNumber : Z
}.

(** The interpreter's [Result]. *)
Record Result := mkResult {
  Output : bytes;
  GasLeft : Z;
  GasRefund : Z
}.

Definition emptyResult : Result := mkResult [] 0 0.

(** The five results of [handleCalls] and [Call]. *)
Record CallResult := mkCallResult {
  output : bytes;
  gasLeft : Z;
  gasRefund : Z;
  createAddr : Address;
  err : option VMError
}.

(** ** The state backend

    [evmtypes.IntraBlockState], the versioned account and storage backend
    the host drives, is an interface whose implementation is not among the
    sources. It is modelled from the specification: account reads and
    writes, balance moves, the two self-destruct regimes, the access list,
    and snapshots whose revert restores the accounts and leaves the access
    list as it is. *)

(** Modelled from the spec: an account of the backend (not among the
    sources), with its nonce, balance, code and code hash, its current
    storage and the storage committed when the transaction began, the
    destructed mark, and whether it was created within the transaction. *)
Record Account := mkAccount {
  Nonce : Z;
  Balance : uint256;
  Code : bytes;
  CodeHash : Hash;
  Storage : gmap Z Z;
  CommittedStorage : gmap Z Z;
  selfdestructed : bool;
  newlyCreated : bool;
  createdContract : bool
}.

(** Modelled from the spec: the backend state behind the interface
    [evmtypes.IntraBlockState] (not among the sources): the accounts, the
    warm addresses and storage slots, and the logs. *)
Record IntraBlockState := mkIBS {
  accounts : gmap Z Account;
  accessListAddrs : gset Z;
  accessListSlots : gset (Z * Z);
  logs : list Log
}.

(** Modelled from the spec: the snapshot handle of the backend (not among
    the sources), an opaque token identifying a checkpoint; it is
    represented by the checkpoint it identifies, the accounts at the time
    it was acquired. *)
Record SnapshotHandle := mkSnapshot {
  snap_accounts : gmap Z Account
}.

Module IBS.
Section Backend.

(** [crypto.Keccak256Hash]. *)
Variable Keccak256Hash : bytes -> Hash.

(** [crypto.Keccak256Hash(nil)], the hash of the empty code. *)
Definition emptyCodeHash : Hash := Keccak256Hash [].

(** Modelled from the spec: the account a write finds where the backend
    (not among the sources) holds none: nothing but the empty code hash. *)
Definition emptyAccount : Account :=
  mkAccount 0 0 [] emptyCodeHash ∅ ∅ false false false.

(** Modelled from the spec: the account of [addr] a write of the backend
    (not among the sources) works on, a fresh one when there is none. *)
Definition getOrNew (s : IntraBlockState) (addr : Address) : Account :=
  default emptyAccount (accounts s !! addr).

(** Modelled from the spec: the backend (not among the sources) with the
    account of [addr] replaced. *)
Definition setAccount (s : IntraBlockState) (addr : Address) (a : Account)
  : IntraBlockState :=
  mkIBS (<[addr := a]> (accounts s)) (accessListAddrs s)
        (accessListSlots s) (logs s).

(** Modelled from the spec: [IntraBlockState.Exist] (not among the
    sources), whether an account is present. *)
Definition Exist (s : IntraBlockState) (addr : Address) : bool :=
  match accounts s !! addr with Some _ => true | None => false end.

(** Modelled from the spec: [IntraBlockState.GetNonce] (not among the
    sources); zero where there is no account. *)
Definition GetNonce (s : IntraBlockState) (addr : Address) : Z :=
  match accounts s !! addr with Some a => Nonce a | None => 0 end.

(** Modelled from the spec: [IntraBlockState.GetBalance] (not among the
    sources); zero where there is no account. *)
Definition GetBalance (s : IntraBlockState) (addr : Address) : uint256 :=
  match accounts s !! addr with Some a => Balance a | None => 0 end.

(** Modelled from the spec: [IntraBlockState.GetCode] (not among the
    sources); empty where there is no account. *)
Definition GetCode (s : IntraBlockState) (addr : Address) : bytes :=
  match accounts s !! addr with Some a => Code a | None => [] end.

(** Modelled from the spec: [IntraBlockState.GetCodeSize] (not among the
    sources). *)
Definition GetCodeSize (s : IntraBlockState) (addr : Address) : Z :=
  Z.of_nat (length (GetCode s addr)).

(** Modelled from the spec: [IntraBlockState.GetCodeHash] (not among the
    sources); the zero hash where there is no account. *)
Definition GetCodeHash (s : IntraBlockState) (addr : Address) : Hash :=
  match accounts s !! addr with Some a => CodeHash a | None => zeroHash end.

(** Modelled from the spec: [IntraBlockState.GetState] (not among the
    sources), the current value of a slot; zero where nothing was
    written. *)
Definition GetState (s : IntraBlockState) (addr : Address) (key : Hash)
  : uint256 :=
  match accounts s !! addr with
  | Some a => default 0 (Storage a !! key)
  | None => 0
  end.

(** Modelled from the spec: [IntraBlockState.GetCommittedState] (not among
    the sources), the original value of a slot, as of the start of the
    transaction. *)
Definition GetCommittedState (s : IntraBlockState) (addr : Address)
  (key : Hash) : uint256 :=
  match accounts s !! addr with
  | Some a => default 0 (CommittedStorage a !! key)
  | None => 0
  end.

(** Modelled from the spec: [IntraBlockState.SetState] (not among the
    sources), which writes the current value of a slot and leaves the
    original value alone. *)
Definition SetState (s : IntraBlockState) (addr : Address) (key : Hash)
  (value : uint256) : IntraBlockState :=
  let a := getOrNew s addr in
  setAccount s addr
    (mkAccount (Nonce a) (Balance a) (Code a) (CodeHash a)
       (<[key := value]> (Storage a)) (CommittedStorage a)
       (selfdestructed a) (newlyCreated a) (createdContract a)).

(** Modelled from the spec: [IntraBlockState.SetNonce] (not among the
    sources). *)
Definition SetNonce (s : IntraBlockState) (addr : Address) (nonce : Z)
  : IntraBlockState :=
  let a := getOrNew s addr in
  setAccount s addr
    (mkAccount nonce (Balance a) (Code a) (CodeHash a) (Storage a)
       (CommittedStorage a) (selfdestructed a) (newlyCreated a)
       (createdContract a)).

(** Modelled from the spec: an account of the backend (not among the
    sources) with its balance replaced. *)
Definition setBalance (a : Account) (b : uint256) : Account :=
  mkAccount (Nonce a) b (Code a) (CodeHash a) (Storage a)
    (CommittedStorage a) (selfdestructed a) (newlyCreated a)
    (createdContract a).

(** Modelled from the spec: [IntraBlockState.SubBalance] (not among the
    sources), on 256-bit integers. *)
Definition SubBalance (s : IntraBlockState) (addr : Address)
  (amount : uint256) : IntraBlockState :=
  let a := getOrNew s addr in
  setAccount s addr (setBalance a (to_uint256 (Balance a - amount))).

(** Modelled from the spec: [IntraBlockState.AddBalance] (not among the
    sources), on 256-bit integers. *)
Definition AddBalance (s : IntraBlockState) (addr : Address)
  (amount : uint256) : IntraBlockState :=
  let a := getOrNew s addr in
  setAccount s addr (setBalance a (to_uint256 (Balance a + amount))).

(** Modelled from the spec: [IntraBlockState.SetCode] (not among the
    sources), which stores the code and its hash. *)
Definition SetCode (s : IntraBlockState) (addr : Address) (code : bytes)
  : IntraBlockState :=
  let a := getOrNew s addr in
  setAccount s addr
    (mkAccount (Nonce a) (Balance a) code (Keccak256Hash code) (Storage a)
       (CommittedStorage a) (selfdestructed a) (newlyCreated a)
       (createdContract a)).

(** Modelled from the spec: [IntraBlockState.CreateAccount] (not among the
    sources), which materializes a new account at [addr]; the balance of a
    live previous account carries over, and the account counts as created
    within the transaction. *)
Definition CreateAccount (s : IntraBlockState) (addr : Address)
  (contractCreation : bool) : IntraBlockState :=
  let balance :=
    match accounts s !! addr with
    | Some prev => if selfdestructed prev then 0 else Balance prev
    | None => 0
    end in
  setAccount s addr
    (mkAccount 0 balance [] emptyCodeHash ∅ ∅ false true contractCreation).

(** Modelled from the spec: [IntraBlockState.Selfdestruct] (not among the
    sources), the legacy regime: the account is marked destructed, its
    removal left to the end of the transaction, and its balance leaves it;
    the result tells whether there was an account to destruct. *)
Definition Selfdestruct (s : IntraBlockState) (addr : Address)
  : bool * IntraBlockState :=
  match accounts s !! addr with
  | Some a =>
      (true,
       setAccount s addr
         (mkAccount (Nonce a) 0 (Code a) (CodeHash a) (Storage a)
            (CommittedStorage a) true (newlyCreated a) false))
  | None => (false, s)
  end.

(** Modelled from the spec: [IntraBlockState.Selfdestruct6780] (not among
    the sources), the regime after EIP-6780: the account is marked
    destructed only if it was created within the same transaction, and
    otherwise survives untouched. *)
Definition Selfdestruct6780 (s : IntraBlockState) (addr : Address)
  : IntraBlockState :=
  match accounts s !! addr with
  | Some a => if newlyCreated a then snd (Selfdestruct s addr) else s
  | None => s
  end.

(** Modelled from the spec: [IntraBlockState.HasSelfdestructed] (not among
    the sources), whether the account is, or will be, removed. *)
Definition HasSelfdestructed (s : IntraBlockState) (addr : Address) : bool :=
  match accounts s !! addr with
  | Some a => selfdestructed a
  | None => false
  end.

(** Modelled from the spec: [IntraBlockState.AddLog] (not among the
    sources), which appends the log. *)
Definition AddLog (s : IntraBlockState) (l : Log) : IntraBlockState :=
  mkIBS (accounts s) (accessListAddrs s) (accessListSlots s) (logs s ++ [l]).

(** Modelled from the spec: [IntraBlockState.AddAddressToAccessList] (not
    among the sources): the address is warm afterwards, and the result
    tells whether this was its first touch. *)
Definition AddAddressToAccessList (s : IntraBlockState) (addr : Address)
  : bool * IntraBlockState :=
  (negb (bool_decide (addr ∈ accessListAddrs s)),
   mkIBS (accounts s) ({[addr]} ∪ accessListAddrs s) (accessListSlots s)
         (logs s)).

(** Modelled from the spec: [IntraBlockState.AddSlotToAccessList] (not
    among the sources): address and slot are warm afterwards, and the
    results tell whether each was touched for the first time. *)
Definition AddSlotToAccessList (s : IntraBlockState) (addr : Address)
  (key : Hash) : (bool * bool) * IntraBlockState :=
  ((negb (bool_decide (addr ∈ accessListAddrs s)),
    negb (bool_decide ((addr, key) ∈ accessListSlots s))),
   mkIBS (accounts s) ({[addr]} ∪ accessListAddrs s)
         ({[(addr, key)]} ∪ accessListSlots s) (logs s)).

(** Modelled from the spec: [IntraBlockState.Snapshot] (not among the
    sources), which acquires a handle on the present accounts. *)
Definition Snapshot (s : IntraBlockState) : SnapshotHandle :=
  mkSnapshot (accounts s).

(** Modelled from the spec: [IntraBlockState.RevertToSnapshot] (not among
    the sources), which restores every mutation of the accounts (balances,
    storage, code, nonces, created accounts) made since the handle was
    acquired; access-list entries are not restored. *)
Definition RevertToSnapshot (s : IntraBlockState) (snap : SnapshotHandle)
  : IntraBlockState :=
  mkIBS (snap_accounts snap) (accessListAddrs s) (accessListSlots s)
        (logs s).

End Backend.
End IBS.

Arguments IBS.Exist : simpl never.
Arguments IBS.GetNonce : simpl never.
Arguments IBS.GetBalance : simpl never.
Arguments IBS.GetCode : simpl never.
Arguments IBS.GetCodeSize : simpl never.
Arguments IBS.GetCodeHash : simpl never.
Arguments IBS.GetState : simpl never.
Arguments IBS.GetCommittedState : simpl never.
Arguments IBS.SetState : simpl never.
Arguments IBS.SetNonce : simpl never.
Arguments IBS.SubBalance : simpl never.
Arguments IBS.AddBalance : simpl never.
Arguments IBS.SetCode : simpl never.
Arguments IBS.CreateAccount : simpl never.
Arguments IBS.Selfdestruct : simpl never.
Arguments IBS.Selfdestruct6780 : simpl never.
Arguments IBS.HasSelfdestructed : simpl never.
Arguments IBS.AddLog : simpl never.
Arguments IBS.AddAddressToAccessList : simpl never.
Arguments IBS.AddSlotToAccessList : simpl never.
Arguments IBS.Snapshot : simpl never.
Arguments IBS.RevertToSnapshot : simpl never.

(** Equality of events is decidable, so that membership in a trace can be
    computed. *)
#[global] Instance byte_eq_dec : EqDecision Byte.byte := Byte.byte_eq_dec.
#[global] Instance VMError_eq_dec : EqDecision VMError.
Proof. solve_decision. Defined.
#[global] Instance CallKind_eq_dec : EqDecision CallKind.
Proof. solve_decision. Defined.
#[global] Instance Result_eq_dec : EqDecision Result.
Proof. solve_decision. Defined.
#[global] Instance Log_eq_dec : EqDecision Log.
Proof. solve_decision. Defined.

(** ** The host monad

    A host method runs on the backend and yields its result, the backend
    it leaves, and the operations it issued on the backend and on its
    collaborators, oldest first. Reads leave no event. *)

Inductive Event :=
| EvSetState (addr : Address) (key : Hash) (value : uint256)
| EvSubBalance (addr : Address) (amount : uint256)
| EvAddBalance (addr : Address) (amount : uint256)
| EvSelfdestruct (addr : Address)
| EvSelfdestruct6780 (addr : Address)
| EvAddLog (l : Log)
| EvSnapshot
| EvRevertToSnapshot
| EvCreateAccount (addr : Address) (contractCreation : bool)
| EvTransfer (sender recipient : Address) (value : uint256) (bailout : bool)
| EvSetNonce (addr : Address) (nonce : Z)
| EvAddAddressToAccessList (addr : Address)
| EvAddSlotToAccessList (addr : Address) (key : Hash)
| EvSetCode (addr : Address) (code : bytes)
| EvRunPrecompiledContract (addr : Address) (err : option VMError)
| EvExecute (kind : CallKind) (recipient : Address) (res : Result)
    (err : option VMError).

#[global] Instance Event_eq_dec : EqDecision Event.
Proof. solve_decision. Defined.

Record Outcome (A : Type) := mkOutcome {
  result : A;
  final : IntraBlockState;
  events : list Event
}.
Arguments mkOutcome {A} _ _ _.
Arguments result {A} _.
Arguments final {A} _.
Arguments events {A} _.

Definition M (A : Type) : Type := IntraBlockState -> Outcome A.

Definition pure {A : Type} (a : A) : M A := fun s => mkOutcome a s [].

Definition bind {A B : Type} (m : M A) (f : A -> M B) : M B :=
  fun s =>
    match m s with
    | mkOutcome a s1 t1 =>
        match f a s1 with
        | mkOutcome b s2 t2 => mkOutcome b s2 (t1 ++ t2)
        end
    end.

Notation "'let*' x := c1 'in' c2" := (bind c1 (fun x => c2))
  (at level 10, x name, c1 at level 100, c2 at level 200).
Notation "'do' c1 'in' c2" := (bind c1 (fun _ => c2))
  (at level 10, c1 at level 100, c2 at level 200).

(** A read of the backend. *)
Definition query {A : Type} (f : IntraBlockState -> A) : M A :=
  fun s => mkOutcome (f s) s [].

(** An operation with a result; the event may record it. *)
Definition invoke {A : Type} (ev : A -> Event)
  (f : IntraBlockState -> A * IntraBlockState) : M A :=
  fun s => let (a, s') := f s in mkOutcome a s' [ev a].

(** An operation without one. *)
Definition update (ev : Event) (f : IntraBlockState -> IntraBlockState)
  : M unit :=
  fun s => mkOutcome tt (f s) [ev].

(** [HostImpl], the fields the host methods read. *)
Record HostImpl := mkHostImpl {
  rules : Rules;
  txOrigin : Address;
  blockNumber : Z;
  config : Config;
  rev : Revision;
  bailout : bool
}.

(** [SetBytes32] and [Bytes32]: a hash and the integer it denotes. *)
Definition SetBytes32 (b : Hash) : uint256 := b.
Definition Bytes32 (v : uint256) : Hash := v.

(** The revision [NewEvmOneHost] selects from the fork rules. *)
Definition revisionOf (revs : Revisions) (r : Rules) : Revision :=
  if IsPrague r then Prague revs
  else if IsCancun r then Cancun revs
  else if IsShanghai r then Shanghai revs
  else if IsLondon r then London revs
  else if IsBerlin r then Berlin revs
  else if IsIstanbul r then Istanbul revs
  else if IsPetersburg r then Petersburg revs
  else Frontier revs.

(** ** The host methods *)

Module Host.
Section Methods.

(** [crypto.Keccak256Hash], [crypto.CreateAddress] (sender and nonce) and
    [crypto.CreateAddress2] (sender, salt and init-code hash). *)
Variable Keccak256Hash : bytes -> Hash.
Variable CreateAddress : Address -> Z -> Address.
Variable CreateAddress2 : Address -> Hash -> Hash -> Address.

(** The block context's [CanTransfer] and [Transfer]. *)
Variable CanTransfer : IntraBlockState -> Address -> uint256 -> bool.
Variable Transfer :
  IntraBlockState -> Address -> Address -> uint256 -> bool -> IntraBlockState.

(** [evm.Precompile] and [vm.RunPrecompiledContract], which returns the
    output, the remaining gas and the error. *)
Variable PrecompiledContract : Type.
Variable Precompile : Address -> option PrecompiledContract.
Variable RunPrecompiledContract :
  PrecompiledContract -> bytes -> Z -> bytes * Z * option VMError.

(** [h.Execute], the interpreter: kind, static, depth, gas, recipient,
    sender, input, value and code; it works on the backend through the host
    interface. *)
Variable Execute :
  CallKind -> bool -> Z -> Z -> Address -> Address -> bytes -> Hash -> bytes ->
  IntraBlockState -> (Result * option VMError) * IntraBlockState.

(** The constants of package [params] and the revision numbers. *)
Variable params : Params.
Variable revs : Revisions.

Variable h : HostImpl.

Definition emptyCodeHash : Hash := Keccak256Hash [].

Definition AccountExists (addr : Address) : M bool :=
  query (fun s => IBS.Exist s addr).

Definition GetStorage (addr : Address) (key : Hash) : M Hash :=
  let* w := query (fun s => IBS.GetState s addr key) in
  pure (Bytes32 w).

Definition SetStorage (addr : Address) (key : Hash) (value : Hash)
  : M StorageStatus :=
  let _value := SetBytes32 value in
  let* current := query (fun s => IBS.GetState s addr key) in
  let* original := query (fun s => IBS.GetCommittedState s addr key) in
  let dirty := negb (original =? current) in
  let restored := original =? _value in
  let currentIsZero := current =? 0 in
  let valueIsZero := _value =? 0 in
  let status :=
    if negb dirty && negb restored then
      if currentIsZero then StorageAdded
      else if valueIsZero then StorageDeleted
      else StorageModified
    else if dirty && negb restored then
      if currentIsZero && negb valueIsZero then StorageDeletedAdded
      else if negb currentIsZero && valueIsZero then StorageModifiedDeleted
      else StorageAssigned
    else if dirty && restored then
      if currentIsZero then StorageDeletedRestored
      else if valueIsZero then StorageAddedDeleted
      else StorageModifiedRestored
    else StorageAssigned in
  do update (EvSetState addr key _value)
       (fun s => IBS.SetState Keccak256Hash s addr key _value) in
  pure status.

Definition GetBalance (addr : Address) : M Hash :=
  let* b := query (fun s => IBS.GetBalance s addr) in
  pure (Bytes32 b).

Definition GetCodeSize (addr : Address) : M Z :=
  query (fun s => IBS.GetCodeSize s addr).

Definition GetCodeHash (addr : Address) : M Hash :=
  query (fun s => IBS.GetCodeHash s addr).

Definition GetCode (addr : Address) : M bytes :=
  query (fun s => IBS.GetCode s addr).

Definition Selfdestruct (addr : Address) (beneficiary : Address) : M bool :=
  if Cancun revs <=? rev h then
    let* balance := query (fun s => IBS.GetBalance s addr) in
    do update (EvSubBalance addr balance)
         (fun s => IBS.SubBalance Keccak256Hash s addr balance) in
    do update (EvAddBalance beneficiary balance)
         (fun s => IBS.AddBalance Keccak256Hash s beneficiary balance) in
    do update (EvSelfdestruct6780 addr)
         (fun s => IBS.Selfdestruct6780 s addr) in
    let* r := query (fun s => IBS.HasSelfdestructed s addr) in
    pure r
  else
    let* balance := query (fun s => IBS.GetBalance s addr) in
    do update (EvAddBalance beneficiary balance)
         (fun s => IBS.AddBalance Keccak256Hash s beneficiary balance) in
    invoke (fun _ => EvSelfdestruct addr) (fun s => IBS.Selfdestruct s addr).

Definition EmitLog (addr : Address) (topics : list Hash) (data : bytes)
  : M unit :=
  let l := mkLog (txOrigin h) topics data (blockNumber h) in
  update (EvAddLog l) (fun s => IBS.AddLog s l).

Definition AccessAccount (addr : Address) : M AccessStatus :=
  let* addrMod := invoke (fun _ => EvAddAddressToAccessList addr)
                    (fun s => IBS.AddAddressToAccessList s addr) in
  if addrMod then pure ColdAccess else pure WarmAccess.

Definition AccessStorage (addr : Address) (key : Hash) : M AccessStatus :=
  let* mods := invoke (fun _ => EvAddSlotToAccessList addr key)
                 (fun s => IBS.AddSlotToAccessList s addr key) in
  if snd mods then pure ColdAccess else pure WarmAccess.

Definition len (b : bytes) : Z := Z.of_nat (length b).

(** The message-call kinds. The named result [createAddr] is never
    assigned and keeps its zero value; the assignment [gas = 0] after the
    revert writes the parameter [gas], which is not among the results. *)
Definition handleCalls (kind : CallKind) (recipient : Address)
  (sender : Address) (value : uint256) (input : bytes) (gas : Z) (depth : Z)
  (static : bool) (salt : Hash) (codeAddress : Address) : M CallResult :=
  let createAddr := zeroAddress in
  let gasLeft := to_int64 gas in
  let* canTransfer := query (fun s => CanTransfer s sender value) in
  if (CallKind_eqb kind Call || CallKind_eqb kind CallCode)
     && (negb (value =? 0) && negb canTransfer)
     && negb (bailout h)
  then pure (mkCallResult [] gasLeft 0 zeroAddress (Some ErrInsufficientBalance))
  else
  let p := Precompile codeAddress in
  let isPrecompile := match p with Some _ => true | None => false end in
  let* code :=
    if negb isPrecompile then query (fun s => IBS.GetCode s codeAddress)
    else pure [] in
  let* snapshot := invoke (fun _ => EvSnapshot) (fun s => (IBS.Snapshot s, s)) in
  let* exist := query (fun s => IBS.Exist s recipient) in
  if CallKind_eqb kind Call && negb exist
     && (negb isPrecompile && IsSpuriousDragon (rules h) && (value =? 0))
  then pure (mkCallResult [] gasLeft 0 zeroAddress None)
  else
  do (if CallKind_eqb kind Call then
        do (if negb exist then
              update (EvCreateAccount recipient false)
                (fun s => IBS.CreateAccount Keccak256Hash s recipient false)
            else pure tt) in
        update (EvTransfer sender recipient value (bailout h))
          (fun s => Transfer s sender recipient value (bailout h))
      else pure tt) in
  let* r :=
    match p with
    | Some p =>
        let* o := invoke (fun o => EvRunPrecompiledContract codeAddress (snd o))
                    (fun s => (RunPrecompiledContract p input gas, s)) in
        let '(output, gLeft, err) := o in
        pure (mkCallResult output (to_int64 gLeft) 0 createAddr err)
    | None =>
        if len code =? 0 then
          pure (mkCallResult [] gasLeft 0 createAddr None)
        else
          let* o := invoke (fun o => EvExecute Call recipient (fst o) (snd o))
                      (Execute Call static depth (to_int64 gas) recipient
                         sender input (Bytes32 value) code) in
          let '(evmone_result, err) := o in
          pure (mkCallResult (Output evmone_result) (GasLeft evmone_result)
                  (GasRefund evmone_result) createAddr err)
    end in
  let* gas :=
    if negb (is_nil (err r)) || RestoreState (config h) then
      do update EvRevertToSnapshot
           (fun s => IBS.RevertToSnapshot s snapshot) in
      pure (if negb (err_is (err r) ErrExecutionReverted) then 0 else gas)
    else pure gas in
  pure r.

(** The entry point: message calls go to [handleCalls], everything else
    runs the creation path. The named result [createAddr] is never
    assigned and keeps its zero value. *)
Definition Call (kind : CallKind) (recipient : Address) (sender : Address)
  (value : Hash) (input : bytes) (gas : Z) (depth : Z) (static : bool)
  (salt : Hash) (codeAddress : Address) : M CallResult :=
  let createAddr := zeroAddress in
  let _value := SetBytes32 value in
  match kind with
  | Call | DelegateCall | CallCode =>
      handleCalls kind recipient sender _value input (to_uint64 gas) depth
        static salt codeAddress
  | _ =>
  let* senderNonce := query (fun s => IBS.GetNonce s sender) in
  let '(recipient, code, input) :=
    match kind with
    | Create => (CreateAddress sender senderNonce, input, [])
    | Create2 =>
        (CreateAddress2 sender salt (Keccak256Hash input), input, [])
    | _ => (recipient, [], input)
    end in
  let* canTransfer := query (fun s => CanTransfer s sender _value) in
  if negb canTransfer then
    pure (mkCallResult [] gas 0 zeroAddress (Some ErrInsufficientBalance))
  else
  let* nonce := query (fun s => IBS.GetNonce s sender) in
  if to_uint64 (nonce + 1) <? nonce then
    pure (mkCallResult [] gas 0 zeroAddress (Some ErrNonceUintOverflow))
  else
  do update (EvSetNonce sender (to_uint64 (nonce + 1)))
       (fun s => IBS.SetNonce Keccak256Hash s sender (to_uint64 (nonce + 1))) in
  do (if IsBerlin (rules h) then
        do invoke (fun _ => EvAddAddressToAccessList recipient)
             (fun s => IBS.AddAddressToAccessList s recipient) in
        pure tt
      else pure tt) in
  let* contractHash := query (fun s => IBS.GetCodeHash s recipient) in
  let* recipientNonce := query (fun s => IBS.GetNonce s recipient) in
  if negb (recipientNonce =? 0)
     || (negb (contractHash =? zeroHash) && negb (contractHash =? emptyCodeHash))
  then
    pure (mkCallResult [] gas 0 zeroAddress (Some ErrContractAddressCollision))
  else
  let* snapshot := invoke (fun _ => EvSnapshot) (fun s => (IBS.Snapshot s, s)) in
  do update (EvCreateAccount recipient true)
       (fun s => IBS.CreateAccount Keccak256Hash s recipient true) in
  do (if IsSpuriousDragon (rules h) then
        update (EvSetNonce recipient 1)
          (fun s => IBS.SetNonce Keccak256Hash s recipient 1)
      else pure tt) in
  do update (EvTransfer sender recipient _value false)
       (fun s => Transfer s sender recipient _value false) in
  let* o := invoke (fun o => EvExecute kind recipient (fst o) (snd o))
              (Execute kind static depth gas recipient sender input value
                 code) in
  let '(evmone_result, err) := o in
  let ret := Output evmone_result in
  let gasLeft := GasLeft evmone_result in
  let gasRefund := GasRefund evmone_result in
  let err :=
    if is_nil err && IsSpuriousDragon (rules h)
       && (MaxCodeSize params <? len ret)
    then
      if negb (IsAura (rules h)) || HasEip3860 (config h) (rules h)
      then Some ErrMaxCodeSizeExceeded
      else err
    else err in
  let err :=
    if is_nil err && IsLondon (rules h) && (1 <=? len ret)
       && match ret with b :: _ => Byte.eqb b Byte.xef | [] => false end
    then Some ErrInvalidCode
    else err in
  let* ge :=
    if is_nil err then
      let createDataGas := to_uint64 (len ret * CreateDataGas params) in
      if to_int64 createDataGas <=? gasLeft then
        do update (EvSetCode recipient ret)
             (fun s => IBS.SetCode Keccak256Hash s recipient ret) in
        pure (to_int64 (gasLeft - to_int64 createDataGas), err)
      else if IsHomestead (rules h) then
        pure (gasLeft, Some ErrCodeStoreOutOfGas)
      else pure (gasLeft, err)
    else pure (gasLeft, err) in
  let '(gasLeft, err) := ge in
  do (if negb (is_nil err)
         && (IsHomestead (rules h) || negb (err_is err ErrCodeStoreOutOfGas))
      then update EvRevertToSnapshot
             (fun s => IBS.RevertToSnapshot s snapshot)
      else pure tt) in
  pure (mkCallResult ret gasLeft gasRefund createAddr err)
  end.

End Methods.
End Host.

(** * Vocabulary of the properties *)

(** The table of the status classification, one rule per row, on the
    original, the current and the new value of the slot. *)
Inductive classified (o c v : uint256) : StorageStatus -> Prop :=
| cl_added : o = c -> o <> v -> c = 0 -> classified o c v StorageAdded
| cl_deleted :
    o = c -> o <> v -> c <> 0 -> v = 0 -> classified o c v StorageDeleted
| cl_modified :
    o = c -> o <> v -> c <> 0 -> v <> 0 -> classified o c v StorageModified
| cl_deleted_added :
    o <> c -> o <> v -> c = 0 -> v <> 0 ->
    classified o c v StorageDeletedAdded
| cl_modified_deleted :
    o <> c -> o <> v -> c <> 0 -> v = 0 ->
    classified o c v StorageModifiedDeleted
| cl_assigned_dirty :
    o <> c -> o <> v -> ~ (c = 0 /\ v <> 0) -> ~ (c <> 0 /\ v = 0) ->
    classified o c v StorageAssigned
| cl_deleted_restored :
    o <> c -> o = v -> c = 0 -> classified o c v StorageDeletedRestored
| cl_added_deleted :
    o <> c -> o = v -> c <> 0 -> v = 0 ->
    classified o c v StorageAddedDeleted
| cl_modified_restored :
    o <> c -> o = v -> c <> 0 -> v <> 0 ->
    classified o c v StorageModifiedRestored
| cl_assigned_clean :
    o = c -> o = v -> classified o c v StorageAssigned.

(** The same table as the specification writes it, a cascade of tests on
    dirty = (original <> current) and restored = (original = new). *)
Definition classify (original current newValue : uint256) : StorageStatus :=
  let dirty := negb (original =? current) in
  let restored := original =? newValue in
  if negb dirty && negb restored then
    if current =? 0 then StorageAdded
    else if newValue =? 0 then StorageDeleted
    else StorageModified
  else if dirty && negb restored then
    if (current =? 0) && negb (newValue =? 0) then StorageDeletedAdded
    else if negb (current =? 0) && (newValue =? 0) then StorageModifiedDeleted
    else StorageAssigned
  else if dirty && restored then
    if current =? 0 then StorageDeletedRestored
    else if newValue =? 0 then StorageAddedDeleted
    else StorageModifiedRestored
  else StorageAssigned.

(** The account at [addr] was created within the current transaction. *)
Definition createdInTx (s : IntraBlockState) (addr : Address) : bool :=
  match accounts s !! addr with
  | Some a => newlyCreated a
  | None => false
  end.

(** A property of the outcome of a run, kept folded while the run is
    analysed. *)
Definition post {A : Type} (Q : Outcome A -> Prop) (o : Outcome A) : Prop :=
  Q o.
Arguments post : simpl never.

(** ** Calls and creations *)

Section Vocabulary.

Variable K : bytes -> Hash.
Variable CreateAddress : Address -> Z -> Address.
Variable CreateAddress2 : Address -> Hash -> Hash -> Address.
Variable CanTransfer : IntraBlockState -> Address -> uint256 -> bool.
Variable Transfer :
  IntraBlockState -> Address -> Address -> uint256 -> bool -> IntraBlockState.
Variable Execute :
  CallKind -> bool -> Z -> Z -> Address -> Address -> bytes -> Hash -> bytes ->
  IntraBlockState -> (Result * option VMError) * IntraBlockState.
Variable h : HostImpl.

(** The creation kinds, and the recipient [Call] derives for them. *)
Definition is_creation (kind : CallKind) : bool :=
  match kind with
  | Create | Create2 | EofCreate => true
  | _ => false
  end.

Definition derivedRecipient (kind : CallKind) (recipient sender : Address)
  (salt : Hash) (input : bytes) (s : IntraBlockState) : Address :=
  match kind with
  | Create => CreateAddress sender (IBS.GetNonce s sender)
  | Create2 => CreateAddress2 sender salt (K input)
  | _ => recipient
  end.

(** The recipient collides with an existing contract: nonzero nonce, or a
    code hash that is neither zero nor the hash of the empty code. *)
Definition collides (s : IntraBlockState) (r : Address) : Prop :=
  IBS.GetNonce s r <> 0 \/
  (IBS.GetCodeHash s r <> zeroHash /\
   IBS.GetCodeHash s r <> Host.emptyCodeHash K).

(** The collision check the host runs, on the backend it runs it on. *)
Definition collisionCheck (s : IntraBlockState) (r : Address) : bool :=
  negb (IBS.GetNonce s r =? 0)
  || (negb (IBS.GetCodeHash s r =? zeroHash)
      && negb (IBS.GetCodeHash s r =? Host.emptyCodeHash K)).

(** The code-size limit is in force: Spurious Dragon is active and, on an
    Aura chain, EIP-3860 is active too. *)
Definition sizeLimitActive : bool :=
  IsSpuriousDragon (rules h)
  && (negb (IsAura (rules h)) || HasEip3860 (config h) (rules h)).

(** In a trace, [a] occurs before the first [b]. *)
Definition precedes (a b : Event) (t : list Event) : Prop :=
  exists pre post, t = pre ++ b :: post /\ In a pre /\ ~ In b pre.

(** The collaborators add to the access list and never take from it: the
    interpreter reaches the backend through the host interface only. *)
Definition transferKeepsAccessList : Prop :=
  forall s a b v bail,
    accessListAddrs s ⊆ accessListAddrs (Transfer s a b v bail).

Definition interpreterKeepsAccessList : Prop :=
  forall kind static depth gas r sender input value code s,
    accessListAddrs s ⊆
    accessListAddrs
      (snd (Execute kind static depth gas r sender input value code s)).

(** The balance precheck of [handleCalls] rejects the call: a [Call] or
    [CallCode] of nonzero value the sender cannot pay, without bailout. *)
Definition balancePrecheckFails (kind : CallKind) (sender : Address)
  (value : uint256) (s : IntraBlockState) : bool :=
  (CallKind_eqb kind Call || CallKind_eqb kind CallCode)
  && (negb (value =? 0) && negb (CanTransfer s sender value))
  && negb (bailout h).

End Vocabulary.

(** ** Sample collaborators and states

    The theorems below hold for every hash, address derivation, transfer
    rule, precompile set and interpreter. Concrete instances evaluate the
    host on explicit inputs: a stand-in for the hash and the address
    derivations, the plain balance rules, no precompiles, and interpreters
    that return a fixed result. *)

Module Sample.

Definition hash (b : bytes) : Hash := 1000 + Z.of_nat (length b).

Definition createAddress (sender : Address) (nonce : Z) : Address :=
  4096 + 16 * sender + nonce.

Definition createAddress2 (sender : Address) (salt initHash : Hash)
  : Address :=
  8192 + sender + salt + initHash.

(** The block context's functions: an account can pay what its balance
    covers; a transfer takes the amount from the sender, unless bailing
    out, and gives it to the recipient. *)
Definition canTransfer (s : IntraBlockState) (addr : Address)
  (amount : uint256) : bool :=
  amount <=? IBS.GetBalance s addr.

Definition transfer (s : IntraBlockState) (sender recipient : Address)
  (amount : uint256) (bailout : bool) : IntraBlockState :=
  let s := if negb bailout then IBS.SubBalance hash s sender amount else s in
  IBS.AddBalance hash s recipient amount.

Definition noPrecompile (addr : Address) : option unit := None.

Definition runPrecompile (p : unit) (input : bytes) (gas : Z)
  : bytes * Z * option VMError :=
  (input, gas, None).

(** An interpreter that writes slot 1 of the recipient and then returns
    the given result and error. *)
Definition interpreter (res : Result) (e : option VMError)
  (kind : CallKind) (static : bool) (depth gas : Z)
  (recipient sender : Address) (input : bytes) (value : Hash) (code : bytes)
  (s : IntraBlockState) : (Result * option VMError) * IntraBlockState :=
  ((res, e), IBS.SetState hash s recipient 1 42).

Definition account (nonce : Z) (balance : uint256) (code : bytes) : Account :=
  mkAccount nonce balance code (hash code) ∅ ∅ false false false.

Definition state (accts : list (Address * Account)) : IntraBlockState :=
  mkIBS (list_to_map accts) ∅ ∅ [].

(** The protocol's values of the constants, and the revision numbers of
    EVMC. *)
Definition params : Params := mkParams 24576 200.

Definition revisions : Revisions := mkRevisions 0 6 7 8 9 11 12 13.

(** The rules of a chain at London and at Cancun, not an Aura chain. *)
Definition londonRules : Rules :=
  mkRules true true true true true true false false false false.

Definition cancunRules : Rules :=
  mkRules true true true true true true true true false false.

(** Hosts at London and at Cancun: origin 7, block 1, no forced rollback,
    EIP-3860 active from Shanghai on, no bailout. *)
Definition london : HostImpl :=
  mkHostImpl londonRules 7 1 (mkConfig false IsShanghai)
    (revisionOf revisions londonRules) false.

Definition cancun : HostImpl :=
  mkHostImpl cancunRules 7 1 (mkConfig false IsShanghai)
    (revisionOf revisions cancunRules) false.

(** The host methods at the sample collaborators. *)
Definition handleCalls (res : Result) (e : option VMError) (h : HostImpl) :=
  Host.handleCalls hash canTransfer transfer unit noPrecompile runPrecompile
    (interpreter res e) h.

Definition call (res : Result) (e : option VMError) (h : HostImpl) :=
  Host.Call hash createAddress createAddress2 canTransfer transfer unit
    noPrecompile runPrecompile (interpreter res e) params h.

End Sample.

(** ** Explicit states *)

Module Scenario.
Import Sample.

(** Sender 100 (nonce 3, balance 50) and a contract at 200. The address
    [createAddress 100 3] is 5699. *)
Definition s0 : IntraBlockState :=
  state [(100, account 3 50 []); (200, account 1 0 [Byte.x60])].

(** As [s0], with an account of nonce 1 already at 5699. *)
Definition sCollision : IntraBlockState :=
  state [(100, account 3 50 []); (5699, account 1 0 [])].

(** A sender whose nonce is the largest [uint64], with balance 50. *)
Definition sMaxNonce : IntraBlockState :=
  state [(100, account MaxUint64 50 [])].

(** As [sMaxNonce], with an account of nonce 1 already at the address
    [createAddress 100 MaxUint64]. *)
Definition sMaxNonceCollision : IntraBlockState :=
  state [(100, account MaxUint64 50 []);
         (createAddress 100 MaxUint64, account 1 0 [])].

(** An account at 300 with balance 10 that was not created within the
    transaction, and a beneficiary at 400 with balance 1. *)
Definition sDestruct : IntraBlockState :=
  state [(300, account 1 10 [Byte.x60]); (400, account 0 1 [])].

(** An output one byte longer than the [MaxCodeSize] of the samples. *)
Definition longOutput : bytes :=
  replicate (Z.to_nat (MaxCodeSize Sample.params + 1)) Byte.x00.

End Scenario.

(** ** The constructor, and further rules and samples *)

(** [NewEvmOneHost]: the host of an environment, from its chain rules, the
    origin of its transaction context, the number of its block context, its
    configuration and the bailout flag; the revision is the one the rules
    select. *)
Definition NewEvmOneHost (revs : Revisions) (chainRules : Rules)
  (origin : Address) (number : Z) (cfg : Config) (bail : bool) : HostImpl :=
  mkHostImpl chainRules origin number cfg (revisionOf revs chainRules) bail.

(** The revision numbers grow along the forks the host names. *)
Definition revisionsInOrder (revs : Revisions) : Prop :=
  Frontier revs < Petersburg revs /\ Petersburg revs < Istanbul revs /\
  Istanbul revs < Berlin revs /\ Berlin revs < London revs /\
  London revs < Shanghai revs /\ Shanghai revs < Cancun revs /\
  Cancun revs < Prague revs.

(** A rule set in which an active fork has its predecessors active. *)
Definition rulesInOrder (r : Rules) : Prop :=
  (IsPrague r = true -> IsCancun r = true) /\
  (IsCancun r = true -> IsShanghai r = true) /\
  (IsShanghai r = true -> IsLondon r = true) /\
  (IsLondon r = true -> IsBerlin r = true) /\
  (IsBerlin r = true -> IsIstanbul r = true) /\
  (IsIstanbul r = true -> IsPetersburg r = true).

(** The output starts with the byte 0xEF. *)
Definition startsWithEF (b : bytes) : bool :=
  match b with
  | x :: _ => Byte.eqb x Byte.xef
  | [] => false
  end.

(** The gas the host charges for storing a code, as it computes it. *)
Definition createDataGas (params : Params) (code : bytes) : Z :=
  to_int64 (to_uint64 (Host.len code * CreateDataGas params)).

(** The code-size limit rejects the output. *)
Definition exceedsSizeLimit (params : Params) (h : HostImpl) (b : bytes)
  : bool :=
  sizeLimitActive h && (MaxCodeSize params <? Host.len b).

(** What may follow the interpreter's run in the trace of a creation:
    nothing, the code being stored, or the revert. *)
Definition creationEpilogue (r : Address) (res : Result) (t : list Event)
  : Prop :=
  t = [] \/ t = [EvSetCode r (Output res)] \/ t = [EvRevertToSnapshot].

(** The checks [Call] makes on the output of a creation whose interpreter
    run returned [res] and [e]: the error after the size limit, and then
    after the check of the first byte under London. *)
Definition sizeChecked (params : Params) (h : HostImpl) (res : Result)
  (e : option VMError) : option VMError :=
  if is_nil e && IsSpuriousDragon (rules h)
     && (MaxCodeSize params <? Host.len (Output res))
  then
    if negb (IsAura (rules h)) || HasEip3860 (config h) (rules h)
    then Some ErrMaxCodeSizeExceeded
    else e
  else e.

Definition codeChecked (params : Params) (h : HostImpl) (res : Result)
  (e : option VMError) : option VMError :=
  let err := sizeChecked params h res e in
  if is_nil err && IsLondon (rules h) && (1 <=? Host.len (Output res))
     && startsWithEF (Output res)
  then Some ErrInvalidCode
  else err.

(** The output passed the checks and the gas left pays for storing it. *)
Definition storesCode (params : Params) (h : HostImpl) (res : Result)
  (e : option VMError) : bool :=
  is_nil (codeChecked params h res e)
  && (createDataGas params (Output res) <=? GasLeft res).

(** The error and the gas left a creation returns. *)
Definition creationError (params : Params) (h : HostImpl) (res : Result)
  (e : option VMError) : option VMError :=
  let err := codeChecked params h res e in
  if is_nil err then
    if createDataGas params (Output res) <=? GasLeft res then err
    else if IsHomestead (rules h) then Some ErrCodeStoreOutOfGas
    else err
  else err.

Definition creationGasLeft (params : Params) (h : HostImpl) (res : Result)
  (e : option VMError) : Z :=
  if storesCode params h res e
  then to_int64 (GasLeft res - createDataGas params (Output res))
  else GasLeft res.

(** The condition of the revert that ends a creation. *)
Definition creationReverts (h : HostImpl) (err : option VMError) : bool :=
  negb (is_nil err)
  && (IsHomestead (rules h) || negb (err_is err ErrCodeStoreOutOfGas)).

(** The operations of a creation up to the interpreter's run. *)
Definition creationPrologue (h : HostImpl) (sender r : Address)
  (value : uint256) (nonce : Z) : list Event :=
  EvSetNonce sender (to_uint64 (nonce + 1))
  :: (if IsBerlin (rules h) then [EvAddAddressToAccessList r] else [])
  ++ [EvSnapshot; EvCreateAccount r true]
  ++ (if IsSpuriousDragon (rules h) then [EvSetNonce r 1] else [])
  ++ [EvTransfer sender r value false].
Arguments creationPrologue : simpl never.

(** The outcome of a creation from the backend [s] that ran the
    interpreter, which returned [res] and [e] and left the backend [s6]:
    the results, the operations in their order, and the backend. *)
Definition creationOutcome (K : bytes -> Hash) (params : Params)
  (h : HostImpl) (kind : CallKind) (sender r : Address) (value : uint256)
  (s : IntraBlockState) (res : Result) (e : option VMError)
  (s6 : IntraBlockState) (o : Outcome CallResult) : Prop :=
  let n := IBS.GetNonce s sender in
  let s7 := if storesCode params h res e
            then IBS.SetCode K s6 r (Output res) else s6 in
  result o =
    mkCallResult (Output res) (creationGasLeft params h res e)
      (GasRefund res) zeroAddress (creationError params h res e) /\
  events o =
    creationPrologue h sender r value n
    ++ EvExecute kind r res e
    :: (if storesCode params h res e then [EvSetCode r (Output res)] else [])
    ++ (if creationReverts h (creationError params h res e)
        then [EvRevertToSnapshot] else []) /\
  final o =
    if creationReverts h (creationError params h res e)
    then IBS.RevertToSnapshot s7
           (mkSnapshot
              (accounts (IBS.SetNonce K s sender (to_uint64 (n + 1)))))
    else s7.

(** The early return of [handleCalls]: a [Call] of zero value to an account
    that does not exist and is no precompile, from Spurious Dragon on. *)
Definition skipsMissingRecipient (h : HostImpl) (isPrecompile : bool)
  (kind : CallKind) (recipient : Address) (value : uint256)
  (s : IntraBlockState) : bool :=
  CallKind_eqb kind Call && negb (IBS.Exist s recipient)
  && (negb isPrecompile && IsSpuriousDragon (rules h) && (value =? 0)).

(** The operations of a message call between its snapshot and its body:
    for a [Call], the creation of a missing recipient and the transfer. *)
Definition callPrologue (h : HostImpl) (kind : CallKind)
  (sender recipient : Address) (value : uint256) (s : IntraBlockState)
  : list Event :=
  if CallKind_eqb kind Call then
    (if IBS.Exist s recipient then []
     else [EvCreateAccount recipient false])
    ++ [EvTransfer sender recipient value (bailout h)]
  else [].

(** The body of a message call: the run of a precompile, nothing for an
    empty code, or the run of the interpreter as a [Call]. *)
Definition callBody (isPrecompile : bool) (code : bytes)
  (codeAddress recipient : Address) (body : list Event) : Prop :=
  (isPrecompile = true /\
   exists e, body = [EvRunPrecompiledContract codeAddress e]) \/
  (isPrecompile = false /\ code = [] /\ body = []) \/
  (isPrecompile = false /\ code <> [] /\
   exists res e, body = [EvExecute Call recipient res e]).

(** The operations by which a message call moves value: the transfer and
    the materialization of its recipient. *)
Definition movesValue (ev : Event) : bool :=
  match ev with
  | EvTransfer _ _ _ _ | EvCreateAccount _ _ => true
  | _ => false
  end.

Module Cases.

(** A chain before Homestead, a London chain of the Aura kind, and hosts
    on them; a London host that forces the rollback of every call, and one
    that bails out of the balance check. *)
Definition frontierRules : Rules :=
  mkRules false false false false false false false false false false.

Definition auraRules : Rules :=
  mkRules true true true true true true false false false true.

Definition frontier : HostImpl :=
  NewEvmOneHost Sample.revisions frontierRules 7 1 (mkConfig false IsShanghai)
    false.

Definition aura : HostImpl :=
  NewEvmOneHost Sample.revisions auraRules 7 1 (mkConfig false IsShanghai)
    false.

Definition restoring : HostImpl :=
  NewEvmOneHost Sample.revisions Sample.londonRules 7 1
    (mkConfig true IsShanghai) false.

Definition bailing : HostImpl :=
  NewEvmOneHost Sample.revisions Sample.londonRules 7 1
    (mkConfig false IsShanghai) true.

(** One precompile, at address 4, that returns its input for 15 gas. *)
Definition precompileAt4 (addr : Address) : option unit :=
  if addr =? 4 then Some tt else None.

Definition runIdentity (p : unit) (input : bytes) (gas : Z)
  : bytes * Z * option VMError :=
  if gas <? 15 then ([], 0, Some ErrOutOfGas) else (input, gas - 15, None).

Definition handleCallsWithPrecompile (h : HostImpl) :=
  Host.handleCalls Sample.hash Sample.canTransfer Sample.transfer unit
    precompileAt4 runIdentity (Sample.interpreter emptyResult None) h.

(** Slot 5 of account 300 holds 9 since the transaction began. *)
Definition sStorage : IntraBlockState :=
  mkIBS {[ 300 := mkAccount 1 10 [Byte.x60] (Sample.hash [Byte.x60])
                    {[ 5 := 9 ]} {[ 5 := 9 ]} false false false ]}
        ∅ ∅ [].

End Cases.

(** * Properties *)

(** ** Integer conversions *)

Lemma to_int64_id (z : Z) : is_int64 z -> to_int64 z = z.
Proof.
  unfold is_int64, to_int64. intros Hz.
  rewrite Z.mod_small; lia.
Qed.

Lemma to_uint64_id (z : Z) : is_uint64 z -> to_uint64 z = z.
Proof. unfold is_uint64, to_uint64. intros Hz. apply Z.mod_small. lia. Qed.

(** [int64(uint64(g))] is [g] for every [int64] value [g]. *)
Lemma to_int64_to_uint64 (g : Z) : is_int64 g -> to_int64 (to_uint64 g) = g.
Proof.
  unfold is_int64, to_int64, to_uint64. intros Hg.
  rewrite Zplus_mod_idemp_l. rewrite Z.mod_small; lia.
Qed.

(** [nonce+1 < nonce] on [uint64] holds at the largest value only. *)
Lemma nonce_overflow_iff (n : Z) :
  is_uint64 n -> (to_uint64 (n + 1) <? n) = true <-> n = MaxUint64.
Proof.
  unfold is_uint64, to_uint64, MaxUint64. intros Hn. rewrite Z.ltb_lt. split.
  - intros Hlt. destruct (Z.eq_dec n (2 ^ 64 - 1)) as [|Hne]; [done|].
    rewrite Z.mod_small in Hlt; lia.
  - intros ->. replace (2 ^ 64 - 1 + 1) with (2 ^ 64) by lia.
    rewrite Z_mod_same_full. lia.
Qed.

(** ** The backend: reads after writes *)

Section BackendFacts.

Variable K : bytes -> Hash.

Lemma GetState_SetState s addr key v :
  IBS.GetState (IBS.SetState K s addr key v) addr key = v.
Proof.
  unfold IBS.GetState, IBS.SetState, IBS.setAccount. cbn.
  rewrite lookup_insert_eq. cbn. by rewrite lookup_insert_eq.
Qed.

Lemma GetNonce_SetNonce s addr n :
  IBS.GetNonce (IBS.SetNonce K s addr n) addr = n.
Proof.
  unfold IBS.GetNonce, IBS.SetNonce, IBS.setAccount. cbn.
  by rewrite lookup_insert_eq.
Qed.

Lemma accounts_SetNonce_ne s addr n a :
  a <> addr -> accounts (IBS.SetNonce K s addr n) !! a = accounts s !! a.
Proof.
  intros Hne. unfold IBS.SetNonce, IBS.setAccount. cbn.
  by rewrite lookup_insert_ne.
Qed.

Lemma GetCode_SetNonce s addr n a :
  IBS.GetCode (IBS.SetNonce K s addr n) a = IBS.GetCode s a.
Proof.
  unfold IBS.GetCode. destruct (decide (a = addr)) as [->|Hne].
  - unfold IBS.SetNonce, IBS.setAccount, IBS.getOrNew. cbn.
    rewrite lookup_insert_eq. by destruct (accounts s !! addr).
  - by rewrite accounts_SetNonce_ne.
Qed.

(** A revert brings back the accounts the snapshot was acquired on, and
    leaves the access list as it finds it. *)
Lemma accounts_RevertToSnapshot s s' :
  accounts (IBS.RevertToSnapshot s' (IBS.Snapshot s)) = accounts s.
Proof. reflexivity. Qed.

Lemma accessList_RevertToSnapshot s snap :
  accessListAddrs (IBS.RevertToSnapshot s snap) = accessListAddrs s /\
  accessListSlots (IBS.RevertToSnapshot s snap) = accessListSlots s.
Proof. split; reflexivity. Qed.

End BackendFacts.

(** Goals on the accounts of a state built by backend writes: unfold the
    operations, then decide every lookup. *)
Ltac ibs_unfold :=
  unfold IBS.HasSelfdestructed, IBS.Selfdestruct6780, IBS.Selfdestruct,
    IBS.Exist, IBS.GetBalance, IBS.GetNonce, IBS.GetCode, IBS.GetCodeHash,
    IBS.AddBalance, IBS.SubBalance, IBS.SetNonce, IBS.SetCode,
    IBS.CreateAccount, IBS.RevertToSnapshot, IBS.Snapshot,
    IBS.AddAddressToAccessList, IBS.setAccount, IBS.getOrNew, IBS.setBalance
    in *;
  cbn in *.

Ltac ibs_step :=
  match goal with
  | H : accounts ?s !! ?a = _ |- context [accounts ?s !! ?a] => rewrite H
  | |- context [accounts ?s !! ?a] =>
      is_var s; destruct (accounts s !! a) eqn:?
  | |- context [if newlyCreated ?a then _ else _] =>
      destruct (newlyCreated a) eqn:?
  | |- context [if selfdestructed ?a then _ else _] =>
      destruct (selfdestructed a) eqn:?
  | |- context [<[?a := _]> _ !! ?b] =>
      rewrite (lookup_insert _ a b); destruct (decide (a = b)); subst
  end.

Ltac ibs_solve :=
  ibs_unfold; repeat (ibs_step; cbn in *); try done; try congruence.

(** ** Storage status *)

Lemma classified_functional o c v st1 st2 :
  classified o c v st1 -> classified o c v st2 -> st1 = st2.
Proof.
  intros H1 H2. destruct H1; destruct H2; try reflexivity; lia.
Qed.

(** The cascade and the rules are the same table. *)
Lemma classify_classified o c v : classified o c v (classify o c v).
Proof.
  unfold classify.
  destruct (Z.eqb_spec o c) as [Hoc|Hoc];
    destruct (Z.eqb_spec o v) as [Hov|Hov];
    destruct (Z.eqb_spec c 0) as [Hc0|Hc0];
    destruct (Z.eqb_spec v 0) as [Hv0|Hv0];
    cbn; try (constructor; (done || lia)); exfalso; lia.
Qed.

Lemma classified_classify o c v st :
  classified o c v st <-> st = classify o c v.
Proof.
  split.
  - intros H. exact (classified_functional _ _ _ _ _ H (classify_classified o c v)).
  - intros ->. apply classify_classified.
Qed.

(** C1. For every (original, current, new) triple [SetStorage] returns the
    one status the table gives: with dirty = (original <> current) and
    restored = (original = new), Added / Deleted / Modified when neither,
    DeletedAdded / ModifiedDeleted / Assigned when dirty only,
    DeletedRestored / AddedDeleted / ModifiedRestored when both, Assigned
    when restored only. It always returns, and whatever the status it
    writes the new value into the slot's current storage. *)
Theorem SetStorage_classifies_and_writes
  (K : bytes -> Hash) (addr : Address) (key value : Hash)
  (s : IntraBlockState) :
  let original := IBS.GetCommittedState s addr key in
  let current := IBS.GetState s addr key in
  let o := Host.SetStorage K addr key value s in
  result o = classify original current value /\
  classified original current value (result o) /\
  (forall status, classified original current value status ->
                  status = result o) /\
  IBS.GetState (final o) addr key = value /\
  final o = IBS.SetState K s addr key value /\
  events o = [EvSetState addr key value].
Proof.
  intros original current o.
  assert (Hc : classified original current value (result o)).
  { subst o. unfold Host.SetStorage, bind, query, update, pure, SetBytes32.
    cbn. fold original current.
    destruct (Z.eqb_spec original current) as [Hoc|Hoc];
      destruct (Z.eqb_spec original value) as [Hov|Hov];
      destruct (Z.eqb_spec current 0) as [Hc0|Hc0];
      destruct (Z.eqb_spec value 0) as [Hv0|Hv0];
      cbn; try (constructor; (done || lia)); exfalso; lia. }
  split; [by apply classified_classify|].
  split; [exact Hc|]. split.
  { intros status Hs. exact (classified_functional _ _ _ _ _ Hs Hc). }
  subst o. unfold Host.SetStorage, bind, query, update, pure, SetBytes32. cbn.
  split; [apply GetState_SetState|]. split; reflexivity.
Qed.

(** Writing the value a slot already holds is classified [Assigned]:
    a second [SetStorage] of the same value changes nothing more. *)
Lemma SetStorage_again_assigned
  (K : bytes -> Hash) (addr : Address) (key value : Hash)
  (s : IntraBlockState) :
  let s' := final (Host.SetStorage K addr key value s) in
  result (Host.SetStorage K addr key value s') = StorageAssigned /\
  IBS.GetState (final (Host.SetStorage K addr key value s')) addr key = value.
Proof.
  cbn. split.
  - unfold Host.SetStorage, bind, query, update, pure, SetBytes32. cbn.
    rewrite GetState_SetState.
    destruct (IBS.GetCommittedState _ addr key =? value) eqn:E;
      cbn; [reflexivity|].
    destruct (value =? 0); reflexivity.
  - unfold Host.SetStorage, bind, query, update, pure, SetBytes32. cbn.
    apply GetState_SetState.
Qed.

(** ** Logging *)

(** C10. The log [EmitLog] adds carries the transaction origin as its
    address, not the [addr] argument; topics and data pass through
    unchanged, and [addr] has no effect on the log or on anything else. *)
Theorem EmitLog_address_is_origin
  (h : HostImpl) (addr : Address) (topics : list Hash) (data : bytes)
  (s : IntraBlockState) :
  let o := Host.EmitLog h addr topics data s in
  let l := mkLog (txOrigin h) topics data (blockNumber h) in
  logs (final o) = logs s ++ [l] /\
  LogAddress l = txOrigin h /\ Topics l = topics /\ Data l = data /\
  events o = [EvAddLog l] /\
  forall addr' : Address, Host.EmitLog h addr' topics data s = o.
Proof.
  cbn. unfold Host.EmitLog, update, IBS.AddLog. cbn. repeat split.
Qed.

(** ** Self-destruct *)

Section SelfdestructFacts.

Variable K : bytes -> Hash.

Lemma HasSelfdestructed_Selfdestruct6780 s addr :
  IBS.HasSelfdestructed (IBS.Selfdestruct6780 s addr) addr =
  createdInTx s addr || IBS.HasSelfdestructed s addr.
Proof. unfold createdInTx. ibs_solve. Qed.

Lemma HasSelfdestructed_AddBalance s b amt addr :
  IBS.HasSelfdestructed (IBS.AddBalance K s b amt) addr =
  IBS.HasSelfdestructed s addr.
Proof. ibs_solve. Qed.

Lemma HasSelfdestructed_SubBalance s b amt addr :
  IBS.HasSelfdestructed (IBS.SubBalance K s b amt) addr =
  IBS.HasSelfdestructed s addr.
Proof. ibs_solve. Qed.

Lemma createdInTx_AddBalance s b amt addr :
  createdInTx (IBS.AddBalance K s b amt) addr = createdInTx s addr.
Proof. unfold createdInTx. ibs_solve. Qed.

Lemma createdInTx_SubBalance s b amt addr :
  createdInTx (IBS.SubBalance K s b amt) addr = createdInTx s addr.
Proof. unfold createdInTx. ibs_solve. Qed.






Lemma GetBalance_SubBalance_all s addr :
  IBS.GetBalance (IBS.SubBalance K s addr (IBS.GetBalance s addr)) addr = 0.
Proof. unfold to_uint256. ibs_solve; by rewrite Z.sub_diag. Qed.



Lemma GetBalance_AddBalance s a amt :
  IBS.GetBalance (IBS.AddBalance K s a amt) a =
  to_uint256 (IBS.GetBalance s a + amt).
Proof. ibs_solve. Qed.

End SelfdestructFacts.

(** When the Cancun rule is active, the revision [NewEvmOneHost] selects is
    at or above Cancun, the revision numbers being in order. *)
Lemma revisionOf_cancun (revs : Revisions) (r : Rules) :
  Cancun revs <= Prague revs -> IsCancun r = true ->
  Cancun revs <= revisionOf revs r.
Proof.
  intros Hord Hc. unfold revisionOf. rewrite Hc.
  destruct (IsPrague r); lia.
Qed.

(** What [Selfdestruct] does at revision Cancun or later. *)
Lemma Selfdestruct_cancun_run
  (K : bytes -> Hash) (revs : Revisions) (h : HostImpl)
  (addr beneficiary : Address) (s : IntraBlockState) :
  Cancun revs <= rev h ->
  let balance := IBS.GetBalance s addr in
  let s' :=
    IBS.Selfdestruct6780
      (IBS.AddBalance K (IBS.SubBalance K s addr balance) beneficiary balance)
      addr in
  Host.Selfdestruct K revs h addr beneficiary s =
  mkOutcome (IBS.HasSelfdestructed s' addr) s'
    [EvSubBalance addr balance; EvAddBalance beneficiary balance;
     EvSelfdestruct6780 addr].
Proof.
  intros Hrev. unfold Host.Selfdestruct.
  by rewrite (proj2 (Z.leb_le _ _) Hrev).
Qed.


(** ** Calls and creations *)

(** Case analysis on whatever the host branches on next. *)
Ltac host_case :=
  match goal with
  | |- context [if ?b then _ else _] => destruct b eqn:?
  | |- context [let (_, _) := ?p in _] =>
      lazymatch type of p with
      | prod _ _ => destruct p eqn:?
      end
  | |- context [match ?o with Some _ => _ | None => _ end] =>
      destruct o eqn:?
  end.

Ltac host_unfold :=
  unfold Host.Call, Host.handleCalls, bind, query, invoke, update, pure.

Ltac host_cases := repeat (host_case; cbn).

(** Membership of an event in an explicit list of events. *)
Ltac event_cases H :=
  cbn in H;
  repeat match type of H with
         | _ \/ _ => destruct H as [H|H]; [try discriminate H|]
         | False => destruct H
         end.

Section CallFacts.

Variable K : bytes -> Hash.
Variable CreateAddress : Address -> Z -> Address.
Variable CreateAddress2 : Address -> Hash -> Hash -> Address.
Variable CanTransfer : IntraBlockState -> Address -> uint256 -> bool.
Variable Transfer :
  IntraBlockState -> Address -> Address -> uint256 -> bool -> IntraBlockState.
Variable PrecompiledContract : Type.
Variable Precompile : Address -> option PrecompiledContract.
Variable RunPrecompiledContract :
  PrecompiledContract -> bytes -> Z -> bytes * Z * option VMError.
Variable Execute :
  CallKind -> bool -> Z -> Z -> Address -> Address -> bytes -> Hash -> bytes ->
  IntraBlockState -> (Result * option VMError) * IntraBlockState.
Variable params : Params.
Variable h : HostImpl.

Local Abbreviation handleCalls :=
  (Host.handleCalls K CanTransfer Transfer PrecompiledContract Precompile
     RunPrecompiledContract Execute h).
Local Abbreviation hostCall :=
  (Host.Call K CreateAddress CreateAddress2 CanTransfer Transfer
     PrecompiledContract Precompile RunPrecompiledContract Execute params h).
Local Abbreviation derivedRecipient :=
  (derivedRecipient K CreateAddress CreateAddress2).
Local Abbreviation collides := (collides K).
Local Abbreviation collisionCheck := (collisionCheck K).
Local Abbreviation sizeLimitActive := (sizeLimitActive h).
Local Abbreviation transferKeepsAccessList :=
  (transferKeepsAccessList Transfer).
Local Abbreviation interpreterKeepsAccessList :=
  (interpreterKeepsAccessList Execute).
Local Abbreviation balancePrecheckFails := (balancePrecheckFails CanTransfer h).

Lemma handleCalls_createAddr_zero kind recipient sender value input gas depth
  static salt codeAddress s :
  createAddr
    (result (handleCalls kind recipient sender value input gas depth static
               salt codeAddress s)) = zeroAddress.
Proof.
  host_unfold. cbn. host_cases; reflexivity.
Qed.

(** C3 (as the code has it). The [createAddr] result of [Call] is the zero
    address on every path, successful creations included: the result is
    named and never assigned, so the derived recipient is not returned. *)
Theorem Call_createAddr_zero kind recipient sender value input gas depth
  static salt codeAddress s :
  createAddr
    (result (hostCall kind recipient sender value input gas depth static
               salt codeAddress s)) = zeroAddress.
Proof.
  unfold Host.Call.
  destruct kind; try apply handleCalls_createAddr_zero;
    unfold bind, query, invoke, update, pure; cbn;
    host_cases; reflexivity.
Qed.

(** C6 (amended). A creation that passes the balance precheck with the
    sender's nonce at the largest [uint64] fails with [ErrNonceUintOverflow]
    and returns at once: no nonce increment, no access-list entry, no
    snapshot, no backend operation at all, the backend unchanged. *)
Theorem Call_nonce_overflow kind recipient sender value input gas depth
  static salt codeAddress s :
  is_creation kind = true ->
  CanTransfer s sender value = true ->
  IBS.GetNonce s sender = MaxUint64 ->
  let o := hostCall kind recipient sender value input gas depth static salt
             codeAddress s in
  err (result o) = Some ErrNonceUintOverflow /\
  gasLeft (result o) = gas /\
  final o = s /\
  events o = [].
Proof.
  intros Hk Hc Hn.
  destruct kind; try discriminate Hk;
    unfold Host.Call, bind, query, invoke, update, pure, SetBytes32; cbn;
    rewrite Hc; cbn; rewrite Hn;
    replace (to_uint64 (MaxUint64 + 1) <? MaxUint64) with true
      by (vm_compute; reflexivity);
    repeat split; reflexivity.
Qed.

Lemma no_overflow_below_max (n : Z) :
  0 <= n < MaxUint64 -> (to_uint64 (n + 1) <? n) = false.
Proof.
  unfold MaxUint64, to_uint64. intros Hn. apply Z.ltb_ge.
  rewrite Z.mod_small; lia.
Qed.

Lemma bump_below_max (n : Z) :
  0 <= n < MaxUint64 -> to_uint64 (n + 1) = n + 1.
Proof.
  unfold MaxUint64, to_uint64. intros Hn. apply Z.mod_small. lia.
Qed.

Lemma GetNonce_SetNonce_ne s a n b :
  b <> a -> IBS.GetNonce (IBS.SetNonce K s a n) b = IBS.GetNonce s b.
Proof. intros Hne. ibs_solve. Qed.

Lemma GetCodeHash_SetNonce_ne s a n b :
  b <> a -> IBS.GetCodeHash (IBS.SetNonce K s a n) b = IBS.GetCodeHash s b.
Proof. intros Hne. ibs_solve. Qed.

Lemma GetNonce_AddAddressToAccessList s a b :
  IBS.GetNonce (snd (IBS.AddAddressToAccessList s a)) b = IBS.GetNonce s b.
Proof. reflexivity. Qed.

Lemma GetCodeHash_AddAddressToAccessList s a b :
  IBS.GetCodeHash (snd (IBS.AddAddressToAccessList s a)) b =
  IBS.GetCodeHash s b.
Proof. reflexivity. Qed.

Lemma collisionCheck_true s r : collisionCheck s r = true <-> collides s r.
Proof.
  unfold collisionCheck, collides.
  rewrite orb_true_iff, andb_true_iff, !negb_true_iff, !Z.eqb_neq. tauto.
Qed.

(** A collision before the sender's nonce is bumped is one after it. *)
Lemma collides_after_bump s sender n r :
  n <> 0 -> collides s r -> collides (IBS.SetNonce K s sender n) r.
Proof.
  intros Hn Hc. unfold collides in *.
  destruct (decide (r = sender)) as [->|Hne].
  - left. by rewrite GetNonce_SetNonce.
  - by rewrite GetNonce_SetNonce_ne, GetCodeHash_SetNonce_ne.
Qed.

(** C5 (amended). A [Create] that passes the balance and nonce-overflow
    prechecks and whose derived recipient already holds a nonzero nonce or
    non-empty code fails with [ErrContractAddressCollision]; the sender's
    nonce has been incremented exactly once and stays so; no snapshot is
    acquired, and the only other effect on the backend is the recipient's
    entry in the access list when Berlin is active. *)
Theorem Call_create_collision recipient sender value input gas depth static
  salt codeAddress s :
  let n := IBS.GetNonce s sender in
  let r := CreateAddress sender n in
  CanTransfer s sender value = true ->
  0 <= n < MaxUint64 ->
  collides s r ->
  let o := hostCall Create recipient sender value input gas depth static salt
             codeAddress s in
  let s1 := IBS.SetNonce K s sender (n + 1) in
  err (result o) = Some ErrContractAddressCollision /\
  IBS.GetNonce (final o) sender = n + 1 /\
  final o =
    (if IsBerlin (rules h) then snd (IBS.AddAddressToAccessList s1 r)
     else s1) /\
  events o =
    EvSetNonce sender (n + 1)
    :: (if IsBerlin (rules h) then [EvAddAddressToAccessList r] else []) /\
  ~ In EvSnapshot (events o).
Proof.
  intros n r Hc Hn Hcol o s1.
  assert (Hcol1 : collisionCheck s1 r = true).
  { apply collisionCheck_true, collides_after_bump; [lia|done]. }
  assert (Hrun : o =
    mkOutcome (mkCallResult [] gas 0 zeroAddress
                 (Some ErrContractAddressCollision))
      (if IsBerlin (rules h) then snd (IBS.AddAddressToAccessList s1 r)
       else s1)
      (EvSetNonce sender (n + 1)
       :: (if IsBerlin (rules h) then [EvAddAddressToAccessList r]
           else []))).
  { subst o. unfold Host.Call, bind, query, invoke, update, pure, SetBytes32.
    cbn. rewrite Hc. cbn. fold n. rewrite (no_overflow_below_max n Hn). cbn.
    rewrite (bump_below_max n Hn). fold s1. fold r.
    unfold collisionCheck in Hcol1.
    destruct (IsBerlin (rules h)); cbn.
    - generalize (GetNonce_AddAddressToAccessList s1 r r).
      generalize (GetCodeHash_AddAddressToAccessList s1 r r).
      destruct (IBS.AddAddressToAccessList s1 r) as [added s2]. cbn.
      intros -> ->. rewrite Hcol1. reflexivity.
    - rewrite Hcol1. reflexivity. }
  rewrite Hrun. cbn [result final events err].
  split; [done|]. split.
  { destruct (IsBerlin (rules h)); subst s1; apply GetNonce_SetNonce. }
  split; [done|]. split; [done|].
  destruct (IsBerlin (rules h)); cbn; intros [Hf|Hf]; try discriminate;
    try done. destruct Hf as [Hf|[]]. discriminate.
Qed.

Lemma accounts_AddAddressToAccessList s a added s' :
  IBS.AddAddressToAccessList s a = (added, s') ->
  accounts s' = accounts s /\ logs s' = logs s /\
  accessListAddrs s' = {[a]} ∪ accessListAddrs s.
Proof. unfold IBS.AddAddressToAccessList. intros [= _ <-]. done. Qed.

(** C4. A creation whose interpreter run succeeds with an output longer
    than [MaxCodeSize] while the size limit is in force fails with
    [ErrMaxCodeSizeExceeded] and is reverted to the snapshot taken before
    the account was created: the accounts are those the sender's nonce
    increment left, so no account holds code it did not hold before. *)
Theorem Call_create_code_too_large kind recipient sender value input gas
  depth static salt codeAddress s res :
  is_creation kind = true ->
  sizeLimitActive = true ->
  let o := hostCall kind recipient sender value input gas depth static salt
             codeAddress s in
  let r := derivedRecipient kind recipient sender salt input s in
  In (EvExecute kind r res None) (events o) ->
  MaxCodeSize params < Host.len (Output res) ->
  let s1 := IBS.SetNonce K s sender (to_uint64 (IBS.GetNonce s sender + 1)) in
  err (result o) = Some ErrMaxCodeSizeExceeded /\
  accounts (final o) = accounts s1 /\
  (forall a, IBS.GetCode (final o) a = IBS.GetCode s a) /\
  last (events o) = Some EvRevertToSnapshot.
Proof.
  intros Hk Hlim o r HIn Hlen s1.
  apply andb_true_iff in Hlim as [Hsd Haura].
  apply Z.ltb_lt in Hlen.
  assert (Hmain : err (result o) = Some ErrMaxCodeSizeExceeded /\
                  accounts (final o) = accounts s1 /\
                  last (events o) = Some EvRevertToSnapshot).
  { revert HIn. subst o r s1.
    match goal with
    | |- In ?e (events ?x) -> _ =>
        change (post (fun o =>
          In e (events o) ->
          err (result o) = Some ErrMaxCodeSizeExceeded /\
          accounts (final o) =
            accounts (IBS.SetNonce K s sender
                        (to_uint64 (IBS.GetNonce s sender + 1))) /\
          last (events o) = Some EvRevertToSnapshot) x)
    end.
    destruct kind; try discriminate Hk; unfold derivedRecipient;
      unfold Host.Call, bind, query, invoke, update, pure, SetBytes32; cbn;
      rewrite ?Hsd, ?Haura; cbn.
    all: destruct (CanTransfer s sender value); cbn;
      [|unfold post; cbn; intros []].
    all: destruct (to_uint64 _ <? _); cbn; [unfold post; cbn; intros []|].
    all: destruct (IsBerlin (rules h)); cbn;
      [destruct (IBS.AddAddressToAccessList _ _) as [added s2] eqn:E;
       apply accounts_AddAddressToAccessList in E as (Ha & _ & _); cbn
      |].
    all: match goal with
         | |- context [if ?b then _ else _] => destruct b eqn:Hcoll
         end; cbn;
      [unfold post; cbn; intros HIn; event_cases HIn|].
    all: match goal with
         | |- context [Execute ?a1 ?a2 ?a3 ?a4 ?a5 ?a6 ?a7 ?a8 ?a9 ?a10] =>
             destruct (Execute a1 a2 a3 a4 a5 a6 a7 a8 a9 a10)
               as [[res' e'] s6] eqn:HE
         end; cbn.
    all: destruct e' as [e|]; cbn.
    all: host_cases.
    all: unfold post; cbn; intros HIn; event_cases HIn.
    all: try (injection HIn as ?; subst res').
    all: try rewrite Hlen in * |-.
    all: cbn in *; try congruence.
    all: try (destruct (IsHomestead (rules h)); cbn in *; congruence).
    all: unfold IBS.RevertToSnapshot, IBS.Snapshot; cbn.
    all: rewrite ?Ha; repeat split; reflexivity. }
  destruct Hmain as (He & Ha & Hlast).
  repeat split; try assumption.
  intros a. unfold IBS.GetCode at 1. rewrite Ha.
  apply (GetCode_SetNonce K).
Qed.

(** C7. In a creation under Berlin that comes to acquire its snapshot, the
    derived recipient is put on the access list before the snapshot is
    acquired; and whatever the creation then does, a revert to that
    snapshot included, the recipient is on the access list when [Call]
    returns. *)
Theorem Call_create_warm_before_snapshot kind recipient sender value input
  gas depth static salt codeAddress s :
  is_creation kind = true ->
  IsBerlin (rules h) = true ->
  let o := hostCall kind recipient sender value input gas depth static salt
             codeAddress s in
  let r := derivedRecipient kind recipient sender salt input s in
  In EvSnapshot (events o) ->
  precedes (EvAddAddressToAccessList r) EvSnapshot (events o) /\
  (transferKeepsAccessList -> interpreterKeepsAccessList ->
   r ∈ accessListAddrs (final o)).
Proof.
  intros Hk Hb o r HIn. split.
  - revert HIn. subst o r.
    match goal with
    | |- In _ (events ?x) -> precedes ?a _ _ =>
        change (post (fun o =>
          In EvSnapshot (events o) -> precedes a EvSnapshot (events o)) x)
    end.
    destruct kind; try discriminate Hk; unfold derivedRecipient;
      unfold Host.Call, bind, query, invoke, update, pure, SetBytes32; cbn;
      rewrite Hb; cbn.
    all: destruct (CanTransfer s sender value); cbn;
      [|unfold post; cbn; intros []].
    all: destruct (to_uint64 _ <? _); cbn; [unfold post; cbn; intros []|].
    all: destruct (IBS.AddAddressToAccessList _ _) as [added s2]; cbn.
    all: match goal with
         | |- context [if ?b then _ else _] => destruct b eqn:Hcoll
         end; cbn;
      [unfold post; cbn; intros HIn; event_cases HIn|].
    all: host_cases.
    all: unfold post; cbn; intros _.
    all: eexists [_; _], _; split; [reflexivity|]; cbn; split; [auto|].
    all: intros [Hf|[Hf|[]]]; discriminate.
  - intros HT HX. revert HIn. subst o r.
    match goal with
    | |- In _ (events ?x) -> ?a ∈ _ =>
        change (post (fun o =>
          In EvSnapshot (events o) -> a ∈ accessListAddrs (final o)) x)
    end.
    destruct kind; try discriminate Hk; unfold derivedRecipient;
      unfold Host.Call, bind, query, invoke, update, pure, SetBytes32; cbn;
      rewrite Hb; cbn.
    all: destruct (CanTransfer s sender value); cbn;
      [|unfold post; cbn; intros []].
    all: destruct (to_uint64 _ <? _); cbn; [unfold post; cbn; intros []|].
    all: destruct (IBS.AddAddressToAccessList _ _) as [added s2] eqn:E;
      apply accounts_AddAddressToAccessList in E as (_ & _ & Hal); cbn.
    all: match goal with
         | |- context [if ?b then _ else _] => destruct b eqn:Hcoll
         end; cbn;
      [unfold post; cbn; intros HIn; event_cases HIn|].
    all: destruct (IsSpuriousDragon (rules h)); cbn.
    all: match goal with
         | |- context [Execute ?a1 ?a2 ?a3 ?a4 ?a5 ?a6 ?a7 ?a8 ?a9
                         (Transfer ?t1 ?t2 ?t3 ?t4 ?t5)] =>
             pose proof (HT t1 t2 t3 t4 t5) as H5;
             pose proof (HX a1 a2 a3 a4 a5 a6 a7 a8 a9
                           (Transfer t1 t2 t3 t4 t5)) as H6;
             destruct (Execute a1 a2 a3 a4 a5 a6 a7 a8 a9
                         (Transfer t1 t2 t3 t4 t5))
               as [[res' e'] s6] eqn:HE
         end; cbn [snd] in H6; cbn.
    all: match goal with
         | |- post (fun o => _ -> ?r ∈ _) _ =>
             assert (Hr : r ∈ accessListAddrs s6)
               by (apply H6, H5; unfold IBS.SetNonce, IBS.CreateAccount,
                     IBS.setAccount; cbn; rewrite Hal;
                   apply elem_of_union_l, elem_of_singleton; reflexivity)
         end.
    all: clear H5 H6 HE Hcoll.
    all: host_cases.
    all: unfold post; cbn; intros _; exact Hr.
Qed.

(** C8 (amended). A [Call] of zero value to an account that does not exist,
    under Spurious Dragon and not to a precompile, succeeds with empty
    output and the gas it was given, and leaves the backend as it was: no
    account is created. More generally a call that the balance precheck
    does not reject and whose code address is no precompile and holds no
    code succeeds with empty output and the gas it was given. Through
    [Call] the gas returned is the [int64] gas supplied. *)
Theorem handleCalls_empty_code kind recipient sender value input gas depth
  static salt codeAddress s :
  let o := handleCalls kind recipient sender value input gas depth static
             salt codeAddress s in
  (kind = Call -> IBS.Exist s recipient = false -> value = 0 ->
   IsSpuriousDragon (rules h) = true -> Precompile codeAddress = None ->
   result o = mkCallResult [] (to_int64 gas) 0 zeroAddress None /\
   final o = s /\
   ~ In (EvCreateAccount recipient false) (events o)) /\
  (balancePrecheckFails kind sender value s = false ->
   Precompile codeAddress = None -> IBS.GetCode s codeAddress = [] ->
   err (result o) = None /\ output (result o) = [] /\
   gasLeft (result o) = to_int64 gas) /\
  (forall g, is_int64 g -> gas = to_uint64 g -> to_int64 gas = g).
Proof.
  intros o. split; [|split].
  - intros -> He -> Hsd Hp. subst o.
    unfold Host.handleCalls, bind, query, invoke, update, pure. cbn.
    rewrite Hp. cbn. rewrite He, Hsd. cbn.
    repeat split. intros [Hf|[]]. discriminate.
  - intros Hpre Hp Hcode. subst o. unfold balancePrecheckFails in Hpre.
    unfold Host.handleCalls, bind, query, invoke, update, pure. cbn.
    rewrite Hpre, Hp. cbn. rewrite Hcode.
    change (Host.len [] =? 0) with true. cbn.
    host_cases; repeat split; reflexivity.
  - intros g Hg ->. by apply to_int64_to_uint64.
Qed.

(** Whenever the interpreter ran for a message call, [handleCalls] returns
    the interpreter's remaining gas and error as they are; on an error the
    accounts are those before the call. *)
Lemma handleCalls_returns_interpreter_gas kind recipient sender value input
  gas depth static salt codeAddress s res e :
  let o := handleCalls kind recipient sender value input gas depth static
             salt codeAddress s in
  In (EvExecute Call recipient res e) (events o) ->
  gasLeft (result o) = GasLeft res /\ err (result o) = e /\
  (e <> None -> accounts (final o) = accounts s /\
                In EvRevertToSnapshot (events o)).
Proof.
  intros o. subst o.
  match goal with
  | |- In ?ev (events ?x) -> _ =>
      change (post (fun o =>
        In ev (events o) ->
        gasLeft (result o) = GasLeft res /\ err (result o) = e /\
        (e <> None -> accounts (final o) = accounts s /\
                      In EvRevertToSnapshot (events o))) x)
  end.
  unfold Host.handleCalls, bind, query, invoke, update, pure. cbn.
  host_cases.
  all: unfold post; cbn; intros HIn; event_cases HIn.
  all: try (injection HIn as ? ?; subst).
  all: cbn in *; try discriminate.
  all: repeat split; auto; try congruence.
  all: try (destruct e; cbn in *; congruence).
  all: tauto.
Qed.

End CallFacts.

(** ** The host on explicit inputs *)

Lemma sample_transfer_keeps_access_list :
  transferKeepsAccessList Sample.transfer.
Proof. intros s a b v bail. unfold Sample.transfer. by destruct bail. Qed.

Lemma sample_interpreter_keeps_access_list res e :
  interpreterKeepsAccessList (Sample.interpreter res e).
Proof. intros kind static depth gas r sender input value code s. done. Qed.

(** C2 (the code at a failing input). A [Call] into the contract at 200
    with 1000 gas, whose interpreter run faults with 7 gas left: the
    accounts are reverted to the snapshot, but [handleCalls] returns the
    interpreter's 7 as [gasLeft], not 0. *)
Theorem handleCalls_fault_keeps_interpreter_gas :
  let o := Sample.handleCalls (mkResult [] 7 0) (Some (ErrFault 1))
             Sample.london Call 200 100 0 [] 1000 0 false 0 200
             Scenario.s0 in
  err (result o) = Some (ErrFault 1) /\
  err_is (err (result o)) ErrExecutionReverted = false /\
  gasLeft (result o) = 7 /\
  gasLeft (result o) <> 0 /\
  accounts (final o) = accounts Scenario.s0 /\
  events o =
    [EvSnapshot; EvTransfer 100 200 0 false;
     EvExecute Call 200 (mkResult [] 7 0) (Some (ErrFault 1));
     EvRevertToSnapshot].
Proof. vm_compute. repeat split. discriminate. Qed.

(** A successful [Create] from sender 100: the new account is at the
    derived address 5699 and holds the returned code, the error is nil,
    and the [createAddr] returned is the zero address. *)
Example Call_create_success_returns_zero_address :
  let o := Sample.call (mkResult [Byte.x00] 700 0) None Sample.london
             Create 0 100 0 [Byte.x60] 1000 0 false 0 0 Scenario.s0 in
  err (result o) = None /\
  derivedRecipient Sample.hash Sample.createAddress Sample.createAddress2
    Create 0 100 0 [Byte.x60] Scenario.s0 = 5699 /\
  IBS.GetCode (final o) 5699 = [Byte.x00] /\
  createAddr (result o) = 0 /\
  createAddr (result o) <> 5699.
Proof. vm_compute. repeat split. discriminate. Qed.

(** C4, on an explicit input: a [Create] under London whose init code
    returns [longOutput]. *)
Lemma Call_create_code_too_large_witness :
  let o := Sample.call (mkResult Scenario.longOutput 700 0) None
             Sample.london Create 0 100 0 [Byte.x60] 1000 0 false 0 0
             Scenario.s0 in
  err (result o) = Some ErrMaxCodeSizeExceeded /\
  IBS.GetCode (final o) 5699 = [] /\
  IBS.Exist (final o) 5699 = false.
Proof.
  intros o.
  destruct (Call_create_code_too_large Sample.hash Sample.createAddress
              Sample.createAddress2 Sample.canTransfer Sample.transfer unit
              Sample.noPrecompile Sample.runPrecompile
              (Sample.interpreter (mkResult Scenario.longOutput 700 0) None)
              Sample.params Sample.london Create 0 100 0 [Byte.x60] 1000 0 false 0 0
              Scenario.s0 (mkResult Scenario.longOutput 700 0))
    as (He & Ha & Hc & _).
  - reflexivity.
  - reflexivity.
  - apply list_elem_of_In, (bool_decide_unpack _). vm_compute. exact I.
  - vm_compute. reflexivity.
  - subst o. unfold Sample.call.
    split; [exact He|]. split; [rewrite Hc; reflexivity|].
    unfold IBS.Exist. rewrite Ha. reflexivity.
Defined.

(** C5 as the specification states it fails on three inputs. Under Berlin
    a colliding [Create] does more to the backend than bump the sender's
    nonce: the recipient 5699 is on the access list afterwards, so the
    backend is not the one the nonce increment alone leaves. A colliding
    [Create] of value 60 from a balance of 50 fails with
    [ErrInsufficientBalance], the sender's nonce still 3. And a colliding
    [Create] from a sender whose nonce is the largest [uint64] fails with
    [ErrNonceUintOverflow], the nonce not incremented. *)
Lemma Call_create_collision_claim_fails :
  (let o := Sample.call emptyResult None Sample.london Create 0 100 0
              [Byte.x60] 1000 0 false 0 0 Scenario.sCollision in
   collides Sample.hash Scenario.sCollision 5699 /\
   err (result o) = Some ErrContractAddressCollision /\
   (5699 ∉ accessListAddrs Scenario.sCollision) /\
   (5699 ∈ accessListAddrs (final o)) /\
   final o <> IBS.SetNonce Sample.hash Scenario.sCollision 100 4) /\
  (let o := Sample.call emptyResult None Sample.london Create 0 100 60
              [Byte.x60] 1000 0 false 0 0 Scenario.sCollision in
   collides Sample.hash Scenario.sCollision 5699 /\
   err (result o) = Some ErrInsufficientBalance /\
   err (result o) <> Some ErrContractAddressCollision /\
   IBS.GetNonce (final o) 100 = 3) /\
  (let o := Sample.call emptyResult None Sample.london Create 0 100 0
              [Byte.x60] 1000 0 false 0 0 Scenario.sMaxNonceCollision in
   collides Sample.hash Scenario.sMaxNonceCollision
     (Sample.createAddress 100 MaxUint64) /\
   err (result o) = Some ErrNonceUintOverflow /\
   err (result o) <> Some ErrContractAddressCollision /\
   IBS.GetNonce (final o) 100 = MaxUint64).
Proof.
  assert (Hc : collides Sample.hash Scenario.sCollision 5699).
  { left. vm_compute. discriminate. }
  split; [|split].
  - split; [exact Hc|]. split; [reflexivity|].
    split; [vm_compute; discriminate|]. split; [vm_compute; reflexivity|].
    intros Heq. apply (f_equal accessListAddrs) in Heq.
    apply (f_equal (fun X : gset Z => bool_decide (5699 ∈ X))) in Heq.
    vm_compute in Heq. discriminate.
  - split; [exact Hc|]. split; [reflexivity|].
    split; [vm_compute; discriminate|]. reflexivity.
  - split; [left; vm_compute; discriminate|]. split; [reflexivity|].
    split; [vm_compute; discriminate|]. reflexivity.
Qed.

(** C5 (amended), on an explicit input under London. *)
Lemma Call_create_collision_witness :
  let o := Sample.call emptyResult None Sample.london Create 0 100 0
             [Byte.x60] 1000 0 false 0 0 Scenario.sCollision in
  err (result o) = Some ErrContractAddressCollision /\
  IBS.GetNonce (final o) 100 = 4 /\
  events o = [EvSetNonce 100 4; EvAddAddressToAccessList 5699].
Proof.
  intros o.
  destruct (Call_create_collision Sample.hash Sample.createAddress
              Sample.createAddress2 Sample.canTransfer Sample.transfer unit
              Sample.noPrecompile Sample.runPrecompile
              (Sample.interpreter emptyResult None) Sample.params
              Sample.london 0 100 0 [Byte.x60] 1000 0 false 0 0 Scenario.sCollision)
    as (He & Hn & _ & Hev & _).
  - reflexivity.
  - vm_compute. split; [discriminate|reflexivity].
  - left. vm_compute. discriminate.
  - split; [exact He|]. split; [exact Hn|exact Hev].
Defined.

(** C6 as the specification states it fails: a creation of value 60 from a
    sender whose nonce is the largest [uint64] and whose balance is 50
    fails with [ErrInsufficientBalance], not with [ErrNonceUintOverflow]. *)
Lemma Call_nonce_overflow_claim_fails :
  let o := Sample.call emptyResult None Sample.london Create 0 100 60
             [Byte.x60] 1000 0 false 0 0 Scenario.sMaxNonce in
  is_creation Create = true /\
  IBS.GetNonce Scenario.sMaxNonce 100 = MaxUint64 /\
  err (result o) = Some ErrInsufficientBalance /\
  err (result o) <> Some ErrNonceUintOverflow.
Proof.
  repeat split; try reflexivity. vm_compute. discriminate.
Qed.

(** C6 (amended), on an explicit input: the same sender, value 0. *)
Lemma Call_nonce_overflow_witness :
  let o := Sample.call emptyResult None Sample.london Create2 0 100 0
             [Byte.x60] 1000 0 false 0 0 Scenario.sMaxNonce in
  err (result o) = Some ErrNonceUintOverflow /\
  final o = Scenario.sMaxNonce /\
  events o = [].
Proof.
  intros o.
  destruct (Call_nonce_overflow Sample.hash Sample.createAddress
              Sample.createAddress2 Sample.canTransfer Sample.transfer unit
              Sample.noPrecompile Sample.runPrecompile
              (Sample.interpreter emptyResult None) Sample.params
              Sample.london Create2 0 100 0 [Byte.x60] 1000 0 false 0 0
              Scenario.sMaxNonce)
    as (He & _ & Hs & Hev); [reflexivity..|].
  split; [exact He|]. split; [exact Hs|exact Hev].
Defined.

(** C7, on an explicit input: a [Create] under London whose init code
    faults, so that the creation is reverted to its snapshot. *)
Lemma Call_create_warm_before_snapshot_witness :
  let o := Sample.call (mkResult [] 0 0) (Some (ErrFault 1))
             Sample.london Create 0 100 0 [Byte.x60] 1000 0 false 0 0
             Scenario.s0 in
  precedes (EvAddAddressToAccessList 5699) EvSnapshot (events o) /\
  In EvRevertToSnapshot (events o) /\
  IBS.Exist (final o) 5699 = false /\
  (5699 ∈ accessListAddrs (final o)).
Proof.
  intros o.
  destruct (Call_create_warm_before_snapshot Sample.hash Sample.createAddress
              Sample.createAddress2 Sample.canTransfer Sample.transfer unit
              Sample.noPrecompile Sample.runPrecompile
              (Sample.interpreter (mkResult [] 0 0) (Some (ErrFault 1)))
              Sample.params Sample.london Create 0 100 0 [Byte.x60] 1000 0 false 0 0
              Scenario.s0)
    as (Hord & Hin).
  - reflexivity.
  - reflexivity.
  - vm_compute. tauto.
  - split; [exact Hord|]. split; [vm_compute; tauto|].
    split; [reflexivity|].
    exact (Hin sample_transfer_keeps_access_list
             (sample_interpreter_keeps_access_list _ _)).
Defined.

(** C8 as the specification states it fails in its general part: a [Call]
    of value 60 from a balance of 50, to a code address that is no
    precompile and holds no code, fails with [ErrInsufficientBalance]. *)
Lemma handleCalls_empty_code_claim_fails :
  let o := Sample.handleCalls emptyResult None Sample.london Call 200
             100 60 [] 1000 0 false 0 300 Scenario.s0 in
  Sample.noPrecompile 300 = None /\
  IBS.GetCode Scenario.s0 300 = [] /\
  err (result o) = Some ErrInsufficientBalance /\
  err (result o) <> None.
Proof.
  repeat split; try reflexivity. vm_compute. discriminate.
Qed.

(** C8 (amended), on explicit inputs: a [Call] of zero value to the
    missing account 300, and a [Call] of value 5 to it. *)
Lemma handleCalls_empty_code_witness :
  (let o := Sample.handleCalls emptyResult None Sample.london Call 300
              100 0 [] 1000 0 false 0 300 Scenario.s0 in
   result o = mkCallResult [] 1000 0 zeroAddress None /\
   final o = Scenario.s0) /\
  (let o := Sample.handleCalls emptyResult None Sample.london Call 300
              100 5 [] 1000 0 false 0 300 Scenario.s0 in
   err (result o) = None /\ output (result o) = [] /\
   gasLeft (result o) = 1000).
Proof.
  split.
  - intros o.
    destruct (handleCalls_empty_code Sample.hash Sample.canTransfer
                Sample.transfer unit Sample.noPrecompile Sample.runPrecompile
                (Sample.interpreter emptyResult None) Sample.london
                Call 300 100 0 [] 1000 0 false 0 300 Scenario.s0)
      as (H1 & _ & _).
    destruct H1 as (Hr & Hs & _); [reflexivity..|].
    split; [exact Hr|exact Hs].
  - intros o.
    destruct (handleCalls_empty_code Sample.hash Sample.canTransfer
                Sample.transfer unit Sample.noPrecompile Sample.runPrecompile
                (Sample.interpreter emptyResult None) Sample.london
                Call 300 100 5 [] 1000 0 false 0 300 Scenario.s0)
      as (_ & H2 & _).
    destruct H2 as (He & Ho & Hg); [reflexivity..|].
    split; [exact He|]. split; [exact Ho|exact Hg].
Defined.


(** * Further properties of the host *)

(** ** The revision the constructor selects *)

(** X1. With revision numbers and rules in order, the host [NewEvmOneHost]
    builds is at or above the revision of a fork exactly when the rule of
    that fork is active, for each fork from Petersburg to Prague; with none
    of these rules active it is at Frontier, whatever Homestead, Spurious
    Dragon and Aura are. *)
Theorem NewEvmOneHost_revision
  (revs : Revisions) (r : Rules) (origin : Address) (number : Z)
  (cfg : Config) (bail : bool) :
  revisionsInOrder revs -> rulesInOrder r ->
  let h := NewEvmOneHost revs r origin number cfg bail in
  (Prague revs <= rev h <-> IsPrague r = true) /\
  (Cancun revs <= rev h <-> IsCancun r = true) /\
  (Shanghai revs <= rev h <-> IsShanghai r = true) /\
  (London revs <= rev h <-> IsLondon r = true) /\
  (Berlin revs <= rev h <-> IsBerlin r = true) /\
  (Istanbul revs <= rev h <-> IsIstanbul r = true) /\
  (Petersburg revs <= rev h <-> IsPetersburg r = true) /\
  (IsPetersburg r = false -> rev h = Frontier revs) /\
  rules h = r /\ txOrigin h = origin /\ blockNumber h = number /\
  config h = cfg /\ bailout h = bail.
Proof.
  intros Hrev Hrules h. subst h. unfold NewEvmOneHost, revisionOf. cbn.
  destruct Hrev as (H1 & H2 & H3 & H4 & H5 & H6 & H7).
  destruct Hrules as (R1 & R2 & R3 & R4 & R5 & R6).
  destruct (IsPrague r), (IsCancun r), (IsShanghai r), (IsLondon r),
    (IsBerlin r), (IsIstanbul r), (IsPetersburg r);
    repeat match goal with
           | H : true = true -> false = true |- _ =>
               discriminate (H eq_refl)
           end;
    repeat split; try reflexivity; intros; try discriminate; try lia.
Qed.

Lemma NewEvmOneHost_revision_witness :
  let h := NewEvmOneHost Sample.revisions Sample.cancunRules 7 1
             (mkConfig false IsShanghai) false in
  (Cancun Sample.revisions <= rev h <-> true = true) /\
  (Prague Sample.revisions <= rev h <-> false = true).
Proof.
  intros h.
  destruct (NewEvmOneHost_revision Sample.revisions Sample.cancunRules 7 1
              (mkConfig false IsShanghai) false)
    as (Hp & Hc & _).
  - vm_compute. repeat split.
  - vm_compute. repeat split; intros; (reflexivity || discriminate).
  - split; [exact Hc|exact Hp].
Defined.

(** ** The access list *)

Lemma AccessAccount_run (addr : Address) (s : IntraBlockState) :
  Host.AccessAccount addr s =
  mkOutcome
    (if bool_decide (addr ∈ accessListAddrs s) then WarmAccess
     else ColdAccess)
    (mkIBS (accounts s) ({[addr]} ∪ accessListAddrs s) (accessListSlots s)
       (logs s))
    [EvAddAddressToAccessList addr].
Proof.
  unfold Host.AccessAccount, bind, invoke, pure, IBS.AddAddressToAccessList.
  by destruct (bool_decide (addr ∈ accessListAddrs s)).
Qed.

Lemma AccessStorage_run (addr : Address) (key : Hash) (s : IntraBlockState) :
  Host.AccessStorage addr key s =
  mkOutcome
    (if bool_decide ((addr, key) ∈ accessListSlots s) then WarmAccess
     else ColdAccess)
    (mkIBS (accounts s) ({[addr]} ∪ accessListAddrs s)
       ({[(addr, key)]} ∪ accessListSlots s) (logs s))
    [EvAddSlotToAccessList addr key].
Proof.
  unfold Host.AccessStorage, bind, invoke, pure, IBS.AddSlotToAccessList.
  cbn. by destruct (bool_decide ((addr, key) ∈ accessListSlots s)).
Qed.

(** X2. [AccessAccount] reports a cold access exactly when the address is
    not yet on the access list; the address is on it afterwards, no other
    address joins or leaves it, the accounts are untouched, and the next
    access of the address is warm. *)
Theorem AccessAccount_cold_then_warm (addr : Address) (s : IntraBlockState) :
  let o := Host.AccessAccount addr s in
  (result o = ColdAccess <-> addr ∉ accessListAddrs s) /\
  (result o = WarmAccess <-> addr ∈ accessListAddrs s) /\
  (forall a, a ∈ accessListAddrs (final o) <->
             a = addr \/ a ∈ accessListAddrs s) /\
  accounts (final o) = accounts s /\
  result (Host.AccessAccount addr (final o)) = WarmAccess.
Proof.
  cbn. rewrite !AccessAccount_run. cbn.
  assert (Hin : addr ∈ ({[addr]} ∪ accessListAddrs s : gset Z))
    by (apply elem_of_union_l, elem_of_singleton; reflexivity).
  rewrite (bool_decide_eq_true_2 _ Hin).
  split; [|split; [|split; [|split]]]; try reflexivity.
  - destruct (bool_decide_reflect (addr ∈ accessListAddrs s));
      split; intros; (done || discriminate).
  - destruct (bool_decide_reflect (addr ∈ accessListAddrs s));
      split; intros; (done || discriminate).
  - intros a. rewrite elem_of_union, elem_of_singleton. tauto.
Qed.

(** X3. [AccessStorage] reports a cold access exactly when the slot is not
    yet on the access list, whether or not its address is: warming the
    address first changes nothing. The slot is on the list afterwards and
    its next access is warm, while another slot of the same address stays as
    cold as it was. *)
Theorem AccessStorage_cold_then_warm
  (addr : Address) (key : Hash) (s : IntraBlockState) :
  let o := Host.AccessStorage addr key s in
  (result o = ColdAccess <-> (addr, key) ∉ accessListSlots s) /\
  result (Host.AccessStorage addr key (final (Host.AccessAccount addr s))) =
    result o /\
  result (Host.AccessStorage addr key (final o)) = WarmAccess /\
  (forall key', key' <> key ->
     result (Host.AccessStorage addr key' (final o)) =
     result (Host.AccessStorage addr key' s)) /\
  accounts (final o) = accounts s.
Proof.
  cbn. rewrite !AccessStorage_run, AccessAccount_run. cbn.
  assert (Hin : (addr, key) ∈
                ({[(addr, key)]} ∪ accessListSlots s : gset (Z * Z)))
    by (apply elem_of_union_l, elem_of_singleton; reflexivity).
  rewrite (bool_decide_eq_true_2 _ Hin).
  split; [|split; [|split; [|split]]]; try reflexivity.
  - destruct (bool_decide_reflect ((addr, key) ∈ accessListSlots s));
      split; intros; (done || discriminate).
  - intros key' Hne. rewrite !AccessStorage_run. cbn.
    assert (Heq : bool_decide ((addr, key') ∈
                    ({[(addr, key)]} ∪ accessListSlots s : gset (Z * Z))) =
                  bool_decide ((addr, key') ∈ accessListSlots s)).
    { apply bool_decide_ext. rewrite elem_of_union, elem_of_singleton.
      split; [intros [Hf|Hf]; [congruence|done]|tauto]. }
    by rewrite Heq.
Qed.

(** ** Storage reads after writes *)

Lemma GetState_SetState_other K s addr key v addr' key' :
  (addr', key') <> (addr, key) ->
  IBS.GetState (IBS.SetState K s addr key v) addr' key' =
  IBS.GetState s addr' key'.
Proof.
  intros Hne. unfold IBS.GetState, IBS.SetState, IBS.setAccount, IBS.getOrNew.
  cbn. rewrite lookup_insert. destruct (decide (addr = addr')) as [<-|Ha].
  - assert (Hk : key <> key') by congruence. cbn.
    rewrite lookup_insert_ne by done.
    by destruct (accounts s !! addr).
  - reflexivity.
Qed.

Lemma GetCommittedState_SetState K s addr key v addr' key' :
  IBS.GetCommittedState (IBS.SetState K s addr key v) addr' key' =
  IBS.GetCommittedState s addr' key'.
Proof.
  unfold IBS.GetCommittedState, IBS.SetState, IBS.setAccount, IBS.getOrNew.
  cbn. rewrite lookup_insert. destruct (decide (addr = addr')) as [<-|Ha].
  - cbn. by destruct (accounts s !! addr).
  - reflexivity.
Qed.

Lemma SetStorage_run K addr key value s :
  Host.SetStorage K addr key value s =
  mkOutcome
    (classify (IBS.GetCommittedState s addr key) (IBS.GetState s addr key)
       value)
    (IBS.SetState K s addr key value) [EvSetState addr key value].
Proof. reflexivity. Qed.

(** X4. [GetStorage] after [SetStorage] reads the value written; every other
    slot, of this and of every other address, reads as before, and so does
    every original value; the access list is not touched. *)
Theorem GetStorage_after_SetStorage
  (K : bytes -> Hash) (addr : Address) (key value : Hash)
  (s : IntraBlockState) :
  let s' := final (Host.SetStorage K addr key value s) in
  result (Host.GetStorage addr key s') = value /\
  (forall addr' key', (addr', key') <> (addr, key) ->
     result (Host.GetStorage addr' key' s') =
     result (Host.GetStorage addr' key' s)) /\
  (forall addr' key',
     IBS.GetCommittedState s' addr' key' =
     IBS.GetCommittedState s addr' key') /\
  accessListAddrs s' = accessListAddrs s /\
  accessListSlots s' = accessListSlots s.
Proof.
  cbv zeta. rewrite SetStorage_run. cbn [final].
  unfold Host.GetStorage, bind, query, pure, Bytes32. cbn.
  split; [apply GetState_SetState|].
  split; [intros; by apply GetState_SetState_other|].
  split; [intros; apply GetCommittedState_SetState|].
  split; reflexivity.
Qed.

(** X5. Writing a slot and then writing its original value back: the second
    write is classified by what it undoes, DeletedRestored when the slot had
    been set to zero, AddedDeleted when the original value is zero,
    ModifiedRestored otherwise, and the slot reads its original value again. *)
Theorem SetStorage_then_restore
  (K : bytes -> Hash) (addr : Address) (key value : Hash)
  (s : IntraBlockState) :
  let original := IBS.GetCommittedState s addr key in
  value <> original ->
  let s1 := final (Host.SetStorage K addr key value s) in
  let o := Host.SetStorage K addr key original s1 in
  result o =
    (if value =? 0 then StorageDeletedRestored
     else if original =? 0 then StorageAddedDeleted
     else StorageModifiedRestored) /\
  result (Host.GetStorage addr key (final o)) = original.
Proof.
  intros original Hne. cbv zeta. rewrite !SetStorage_run.
  cbn [final result].
  rewrite GetCommittedState_SetState, GetState_SetState. fold original.
  split.
  - unfold classify. rewrite Z.eqb_refl.
    destruct (Z.eqb_spec original value) as [Heq|_]; [congruence|]. cbn.
    reflexivity.
  - unfold Host.GetStorage, bind, query, pure, Bytes32. cbn.
    apply GetState_SetState.
Qed.

Lemma SetStorage_then_restore_witness :
  let s1 := final (Host.SetStorage Sample.hash 300 5 0 Cases.sStorage) in
  let o := Host.SetStorage Sample.hash 300 5 9 s1 in
  result (Host.SetStorage Sample.hash 300 5 0 Cases.sStorage) =
    StorageDeleted /\
  result o = StorageDeletedRestored /\
  result (Host.GetStorage 300 5 (final o)) = 9.
Proof.
  intros s1 o.
  destruct (SetStorage_then_restore Sample.hash 300 5 0 Cases.sStorage)
    as (Hr & Hg).
  - vm_compute. discriminate.
  - split; [reflexivity|]. split; [exact Hr|exact Hg].
Defined.

(** ** Self-destruct before Cancun, and to oneself *)

Lemma Selfdestruct_legacy_run
  (K : bytes -> Hash) (revs : Revisions) (h : HostImpl)
  (addr beneficiary : Address) (s : IntraBlockState) :
  rev h < Cancun revs ->
  let balance := IBS.GetBalance s addr in
  let s1 := IBS.AddBalance K s beneficiary balance in
  Host.Selfdestruct K revs h addr beneficiary s =
  mkOutcome (fst (IBS.Selfdestruct s1 addr)) (snd (IBS.Selfdestruct s1 addr))
    [EvAddBalance beneficiary balance; EvSelfdestruct addr].
Proof.
  intros Hrev. unfold Host.Selfdestruct.
  rewrite (proj2 (Z.leb_gt _ _) Hrev).
  unfold bind, query, update, invoke. cbn.
  by destruct (IBS.Selfdestruct _ addr).
Qed.

(** X6. Below revision Cancun [Selfdestruct] credits the beneficiary and
    marks the account destructed whether or not it was created within the
    transaction; it subtracts nothing itself, the destructed account's
    balance going with the mark. With a distinct beneficiary the result and
    the mark tell whether the account existed, and the balance has moved;
    with the account as its own beneficiary the balance is destroyed. *)
Theorem Selfdestruct_legacy
  (K : bytes -> Hash) (revs : Revisions) (h : HostImpl)
  (addr beneficiary : Address) (s : IntraBlockState) :
  rev h < Cancun revs ->
  let o := Host.Selfdestruct K revs h addr beneficiary s in
  events o =
    [EvAddBalance beneficiary (IBS.GetBalance s addr); EvSelfdestruct addr] /\
  (addr <> beneficiary ->
   result o = IBS.Exist s addr /\
   IBS.HasSelfdestructed (final o) addr = IBS.Exist s addr /\
   IBS.GetBalance (final o) addr = 0 /\
   IBS.GetBalance (final o) beneficiary =
     to_uint256 (IBS.GetBalance s beneficiary + IBS.GetBalance s addr)) /\
  (addr = beneficiary ->
   result o = true /\
   IBS.HasSelfdestructed (final o) addr = true /\
   IBS.GetBalance (final o) addr = 0).
Proof.
  intros Hrev o. subst o.
  rewrite (Selfdestruct_legacy_run K revs h _ _ s Hrev).
  cbn [result final events]. split; [reflexivity|]. split.
  - intros Hne. repeat split; ibs_solve.
  - intros <-. repeat split; ibs_solve.
Qed.

Lemma Selfdestruct_legacy_witness :
  let o := Host.Selfdestruct Sample.hash Sample.revisions Sample.london 300
             400 Scenario.sDestruct in
  result o = true /\
  IBS.HasSelfdestructed (final o) 300 = true /\
  IBS.GetBalance (final o) 300 = 0 /\
  IBS.GetBalance (final o) 400 = 11.
Proof.
  intros o.
  destruct (Selfdestruct_legacy Sample.hash Sample.revisions Sample.london
              300 400 Scenario.sDestruct)
    as (_ & Hd & _); [vm_compute; reflexivity|].
  destruct Hd as (Hr & Hm & H300 & H400); [discriminate|].
  split; [exact Hr|]. split; [exact Hm|]. split; [exact H300|exact H400].
Defined.

Lemma Selfdestruct6780_not_created s addr :
  createdInTx s addr = false -> IBS.Selfdestruct6780 s addr = s.
Proof.
  unfold createdInTx, IBS.Selfdestruct6780.
  destruct (accounts s !! addr) as [a|]; [|done]. by intros ->.
Qed.

Lemma GetBalance_Selfdestruct6780_created s addr :
  createdInTx s addr = true ->
  IBS.GetBalance (IBS.Selfdestruct6780 s addr) addr = 0.
Proof.
  unfold createdInTx, IBS.Selfdestruct6780, IBS.Selfdestruct, IBS.GetBalance,
    IBS.setAccount.
  destruct (accounts s !! addr) as [a|]; [|done]. intros ->. cbn.
  by rewrite lookup_insert_eq.
Qed.

(** X7. At revision Cancun or later an account that names itself beneficiary
    keeps its balance when it was not created within the transaction, and
    loses it, marked destructed, when it was. *)
Theorem Selfdestruct_cancun_to_self
  (K : bytes -> Hash) (revs : Revisions) (h : HostImpl) (addr : Address)
  (s : IntraBlockState) :
  Cancun revs <= rev h ->
  0 <= IBS.GetBalance s addr < 2 ^ 256 ->
  let o := Host.Selfdestruct K revs h addr addr s in
  (createdInTx s addr = false ->
   IBS.GetBalance (final o) addr = IBS.GetBalance s addr /\
   result o = IBS.HasSelfdestructed s addr) /\
  (createdInTx s addr = true ->
   IBS.GetBalance (final o) addr = 0 /\ result o = true).
Proof.
  intros Hrev Hbal o. subst o.
  rewrite (Selfdestruct_cancun_run K revs h _ _ s Hrev).
  cbn [result final events].
  rewrite HasSelfdestructed_Selfdestruct6780, createdInTx_AddBalance,
    createdInTx_SubBalance, HasSelfdestructed_AddBalance,
    HasSelfdestructed_SubBalance.
  set (s2 := IBS.AddBalance K _ addr _).
  assert (Hc2 : createdInTx s2 addr = createdInTx s addr)
    by (subst s2; by rewrite createdInTx_AddBalance, createdInTx_SubBalance).
  assert (Hb2 : IBS.GetBalance s2 addr = IBS.GetBalance s addr).
  { subst s2. rewrite GetBalance_AddBalance, GetBalance_SubBalance_all.
    unfold to_uint256. rewrite Z.add_0_l. apply Z.mod_small. lia. }
  split; intros Hc; rewrite Hc; cbn [orb]; (split; [|reflexivity]).
  - rewrite Selfdestruct6780_not_created by congruence. exact Hb2.
  - apply GetBalance_Selfdestruct6780_created. congruence.
Qed.

Lemma Selfdestruct_cancun_to_self_witness :
  let o := Host.Selfdestruct Sample.hash Sample.revisions Sample.cancun 300
             300 Scenario.sDestruct in
  IBS.GetBalance (final o) 300 = 10 /\ result o = false.
Proof.
  intros o.
  destruct (Selfdestruct_cancun_to_self Sample.hash Sample.revisions
              Sample.cancun 300 Scenario.sDestruct)
    as (Hkeep & _).
  - vm_compute. discriminate.
  - vm_compute. split; [discriminate|reflexivity].
  - exact (Hkeep eq_refl).
Defined.

(** ** Message calls *)

(** Fold the goal into a property of the outcome [o]. *)
Ltac as_post o :=
  pattern o;
  lazymatch goal with
  | |- ?P _ => change (post P o)
  end;
  subst o.

Lemma VMError_eqb_eq (a b : VMError) : VMError_eqb a b = true <-> a = b.
Proof.
  split.
  - destruct a, b; cbn; try discriminate; try reflexivity.
    intros H. apply Z.eqb_eq in H. by subst.
  - intros <-. destruct a; cbn; try reflexivity. apply Z.eqb_refl.
Qed.

Lemma len_eqb_zero (c : bytes) : (Host.len c =? 0) = true <-> c = [].
Proof.
  unfold Host.len. destruct c as [|b c]; [done|].
  split; [|discriminate]. intros H%Z.eqb_eq. cbn [length] in H. lia.
Qed.

(** The term a run waits for: the scrutinee that blocks its reduction,
    down to the leftmost atom of a condition. *)
Ltac blocker X :=
  lazymatch X with
  | if ?b then _ else _ => bool_blocker b
  | (if ?b then _ else _) _ => bool_blocker b
  | (let (_, _) := ?p in _) _ => blocker p
  | (match ?o with Some _ => _ | None => _ end) _ => blocker o
  | match ?S with mkOutcome _ _ _ => _ end => blocker S
  | let (_, _) := ?p in _ => blocker p
  | match ?o with Some _ => _ | None => _ end => blocker o
  | _ => constr:(X)
  end
with bool_blocker b :=
  lazymatch b with
  | andb ?a _ => bool_blocker a
  | orb ?a _ => bool_blocker a
  | negb ?a => bool_blocker a
  | is_nil ?e => blocker e
  | err_is ?e _ => blocker e
  | _ => blocker b
  end.

(** One step of a run under [post]: the case distinction on its blocker.
    Fails on a run that has returned. *)
Ltac run_step :=
  lazymatch goal with
  | |- post _ ?X =>
      let a := blocker X in
      lazymatch type of a with
      | Outcome _ => fail "returned"
      | _ => tryif is_var a then destruct a else destruct a eqn:?
      end
  end.

Ltac run_steps := repeat (run_step; cbn).

(** Settle a goal on a run by [tac], whatever the rest of the run does. *)
Ltac rest_of_run X tac :=
  lazymatch X with
  | match ?S with mkOutcome _ _ _ => _ end =>
      first [ solve [destruct S; tac] | rest_of_run S tac ]
  end.


Section MessageCallFacts.

Variable K : bytes -> Hash.
Variable CanTransfer : IntraBlockState -> Address -> uint256 -> bool.
Variable Transfer :
  IntraBlockState -> Address -> Address -> uint256 -> bool -> IntraBlockState.
Variable PrecompiledContract : Type.
Variable Precompile : Address -> option PrecompiledContract.
Variable RunPrecompiledContract :
  PrecompiledContract -> bytes -> Z -> bytes * Z * option VMError.
Variable Execute :
  CallKind -> bool -> Z -> Z -> Address -> Address -> bytes -> Hash -> bytes ->
  IntraBlockState -> (Result * option VMError) * IntraBlockState.
Variable h : HostImpl.

Local Abbreviation handleCalls :=
  (Host.handleCalls K CanTransfer Transfer PrecompiledContract Precompile
     RunPrecompiledContract Execute h).
Local Abbreviation balancePrecheckFails := (balancePrecheckFails CanTransfer h).

(** X8. [handleCalls] returns without any operation on the backend, not even
    a snapshot, exactly when its balance precheck rejects the call; it then
    fails with [ErrInsufficientBalance] and hands back all the gas. *)
Theorem handleCalls_balance_precheck kind recipient sender value input gas
  depth static salt codeAddress s :
  let o := handleCalls kind recipient sender value input gas depth static
             salt codeAddress s in
  (events o = [] <-> balancePrecheckFails kind sender value s = true) /\
  (balancePrecheckFails kind sender value s = true ->
   result o =
     mkCallResult [] (to_int64 gas) 0 zeroAddress
       (Some ErrInsufficientBalance) /\
   final o = s).
Proof.
  intros o. as_post o. unfold balancePrecheckFails.
  unfold Host.handleCalls, bind, query, invoke, update, pure. cbn.
  destruct ((CallKind_eqb kind Call || CallKind_eqb kind CallCode)
            && (negb (value =? 0) && negb (CanTransfer s sender value))
            && negb (bailout h)); cbn.
  - unfold post. cbn. repeat split.
  - host_cases; unfold post; cbn; (split; [split|]); discriminate.
Qed.

(** X9. A message call that returns an error leaves the accounts as they
    were when it was entered: whatever the transfer, the precompile or the
    interpreter did to them is reverted. *)
Theorem handleCalls_error_restores_accounts kind recipient sender value
  input gas depth static salt codeAddress s :
  let o := handleCalls kind recipient sender value input gas depth static
             salt codeAddress s in
  err (result o) <> None -> accounts (final o) = accounts s.
Proof.
  intros o. as_post o.
  unfold Host.handleCalls, bind, query, invoke, update, pure. cbn.
  host_cases; unfold post; cbn; intros Herr; try reflexivity;
    try congruence.
  all: match goal with
       | H : negb (is_nil ?e) || _ = false |- _ =>
           destruct e; cbn in H; [discriminate H|congruence]
       end.
Qed.

(** X10. With [RestoreState] set, every message call leaves the accounts as
    they were when it was entered, a successful one too. *)
Theorem handleCalls_restore_state kind recipient sender value input gas
  depth static salt codeAddress s :
  RestoreState (config h) = true ->
  let o := handleCalls kind recipient sender value input gas depth static
             salt codeAddress s in
  accounts (final o) = accounts s.
Proof.
  intros Hrs o. as_post o.
  unfold Host.handleCalls, bind, query, invoke, update, pure. cbn.
  rewrite Hrs.
  host_cases; unfold post; cbn; try reflexivity.
  all: rewrite orb_true_r in *; discriminate.
Qed.

(** X11. A message call that succeeds is not reverted unless [RestoreState]
    forces it: the revert is issued only on an error or under
    [RestoreState], and then it is the last operation. *)
Theorem handleCalls_revert_only_on_error kind recipient sender value input
  gas depth static salt codeAddress s :
  let o := handleCalls kind recipient sender value input gas depth static
             salt codeAddress s in
  In EvRevertToSnapshot (events o) ->
  (err (result o) <> None \/ RestoreState (config h) = true) /\
  last (events o) = Some EvRevertToSnapshot.
Proof.
  intros o. as_post o.
  unfold Host.handleCalls, bind, query, invoke, update, pure. cbn.
  host_cases; unfold post; cbn; intros HIn; event_cases HIn.
  all: split; [|reflexivity].
  all: first
         [ right; reflexivity
         | match goal with
           | H : negb (is_nil ?e) || ?r = true |- _ =>
               destruct e; cbn in H; [left; discriminate|right; exact H]
           end ].
Qed.

(** X12. Only a [Call] moves value: a [DelegateCall] or a [CallCode] issues
    neither a transfer nor the creation of the recipient's account. *)
Theorem handleCalls_only_Call_transfers kind recipient sender value input
  gas depth static salt codeAddress s :
  kind <> Call ->
  let o := handleCalls kind recipient sender value input gas depth static
             salt codeAddress s in
  Forall (fun ev => movesValue ev = false) (events o).
Proof.
  intros Hk o. as_post o.
  assert (Hkb : CallKind_eqb kind Call = false) by (by destruct kind).
  unfold Host.handleCalls, bind, query, invoke, update, pure. cbn.
  rewrite Hkb. cbn.
  host_cases; unfold post; cbn; repeat constructor.
Qed.

(** X13. A call to a precompile that passes the balance precheck always runs
    the precompile, also when a [Call] of zero value finds no account at the
    recipient; the interpreter is not run, and the results are the
    precompile's, with no refund. *)
Theorem handleCalls_precompile kind recipient sender value input gas depth
  static salt codeAddress s p :
  Precompile codeAddress = Some p ->
  balancePrecheckFails kind sender value s = false ->
  let o := handleCalls kind recipient sender value input gas depth static
             salt codeAddress s in
  let out := RunPrecompiledContract p input gas in
  result o =
    mkCallResult (fst (fst out)) (to_int64 (snd (fst out))) 0 zeroAddress
      (snd out) /\
  In (EvRunPrecompiledContract codeAddress (snd out)) (events o) /\
  (forall k r res e, ~ In (EvExecute k r res e) (events o)).
Proof.
  intros Hp Hb o out. subst out. as_post o.
  unfold balancePrecheckFails in Hb.
  unfold Host.handleCalls, bind, query, invoke, update, pure. cbn.
  rewrite Hp, Hb. cbn.
  rewrite !andb_false_r. cbn.
  destruct (RunPrecompiledContract p input gas) as [[out gLeft] e] eqn:HR.
  host_cases; unfold post; cbn; rewrite ?HR; cbn.
  all: split; [reflexivity|]; split; [tauto|].
  all: intros k r res e' HIn; event_cases HIn.
Qed.

(** X14. Whenever the interpreter is run for a message call, it is run as a
    [Call] on the recipient, whatever the kind of the call, on the code read
    at [codeAddress] before the snapshot, which is not empty and not a
    precompile's; its output, gas left, refund and error are returned as
    they are. *)
Theorem handleCalls_interpreted kind recipient sender value input gas depth
  static salt codeAddress s k r res e :
  let o := handleCalls kind recipient sender value input gas depth static
             salt codeAddress s in
  In (EvExecute k r res e) (events o) ->
  k = Call /\ r = recipient /\
  Precompile codeAddress = None /\
  IBS.GetCode s codeAddress <> [] /\
  result o =
    mkCallResult (Output res) (GasLeft res) (GasRefund res) zeroAddress e /\
  exists s1,
    fst (Execute Call static depth (to_int64 gas) recipient sender input
           (Bytes32 value) (IBS.GetCode s codeAddress) s1) = (res, e).
Proof.
  intros o. as_post o.
  unfold Host.handleCalls, bind, query, invoke, update, pure. cbn.
  host_cases; unfold post; cbn; intros HIn; event_cases HIn.
  all: injection HIn as <- <- <- <-.
  all: repeat split; try reflexivity.
  all: try match goal with
           | H : negb _ = _ |- _ => cbn in H; discriminate H
           end.
  all: try match goal with
           | H : (Host.len ?c =? 0) = false |- ?c <> [] =>
               let E := fresh in
               intros E; rewrite E in H; discriminate H
           end.
  all: match goal with
       | H : Execute ?a1 ?a2 ?a3 ?a4 ?a5 ?a6 ?a7 ?a8 ?a9 ?s1 = ?x |- _ =>
           exists s1; rewrite H; reflexivity
       end.
Qed.

(** X21. The operations of a message call that passes the balance
    precheck, in their order. The early return for a missing recipient
    leaves the snapshot alone; otherwise the snapshot is followed, for a
    [Call], by the creation of a missing recipient and the transfer, then
    by the body, which is the run of the precompile, nothing for an empty
    code, or one run of the interpreter, and then by the revert or
    nothing. *)
Theorem handleCalls_trace kind recipient sender value input gas depth static
  salt codeAddress s :
  let isPrecompile :=
    match Precompile codeAddress with Some _ => true | None => false end in
  balancePrecheckFails kind sender value s = false ->
  let o := handleCalls kind recipient sender value input gas depth static
             salt codeAddress s in
  (skipsMissingRecipient h isPrecompile kind recipient value s = true ->
   events o = [EvSnapshot] /\ final o = s /\
   result o = mkCallResult [] (to_int64 gas) 0 zeroAddress None) /\
  (skipsMissingRecipient h isPrecompile kind recipient value s = false ->
   exists body tail,
     events o =
       EvSnapshot :: callPrologue h kind sender recipient value s
       ++ body ++ tail /\
     callBody isPrecompile (IBS.GetCode s codeAddress) codeAddress recipient
       body /\
     (tail = [] \/ tail = [EvRevertToSnapshot])).
Proof.
  intros isPrecompile Hb o. subst isPrecompile. as_post o.
  unfold balancePrecheckFails in Hb.
  unfold skipsMissingRecipient, callPrologue, callBody.
  unfold Host.handleCalls, bind, query, invoke, update, pure. cbn.
  rewrite Hb. cbn.
  destruct (Precompile codeAddress) as [p|] eqn:Hp; cbn.
  all: run_steps; unfold post; cbn.
  all: split; intros Hskip; try discriminate Hskip.
  all: try solve [repeat split; reflexivity].
  all: first
         [ exists [], [EvRevertToSnapshot]; split; [reflexivity|]
         | eexists [_], [EvRevertToSnapshot]; split; [reflexivity|]
         | exists [], []; split; [reflexivity|]
         | eexists [_], []; split; [reflexivity|] ].
  all: (split; [|auto]).
  all: try solve [left; split; [reflexivity|eexists; reflexivity]].
  all: try solve [right; left; split; [reflexivity|];
                  split; [apply len_eqb_zero; assumption|reflexivity]].
  all: try solve [right; right; split; [reflexivity|];
                  split; [|do 2 eexists; reflexivity];
                  intros Hc%len_eqb_zero; congruence].
Qed.

End MessageCallFacts.

(** ** Message calls on explicit inputs *)

(** A [Call] of value 5 into the contract at 200 whose run ends out of
    gas: the sender's 5 are back and slot 1 of the contract is unwritten. *)
Lemma handleCalls_error_restores_accounts_witness :
  let o := Sample.handleCalls (mkResult [] 7 0) (Some ErrOutOfGas)
             Sample.london Call 200 100 5 [] 1000 0 false 0 200
             Scenario.s0 in
  err (result o) <> None /\
  accounts (final o) = accounts Scenario.s0.
Proof.
  intros o.
  assert (H : err (result o) <> None) by (vm_compute; discriminate).
  split; [exact H|].
  exact (handleCalls_error_restores_accounts Sample.hash Sample.canTransfer
           Sample.transfer unit Sample.noPrecompile Sample.runPrecompile
           (Sample.interpreter (mkResult [] 7 0) (Some ErrOutOfGas))
           Sample.london Call 200 100 5 [] 1000 0 false 0 200 Scenario.s0 H).
Defined.

(** The same call, successful, on the host that restores the state. *)
Lemma handleCalls_restore_state_witness :
  let o := Sample.handleCalls (mkResult [] 7 0) None Cases.restoring Call
             200 100 5 [] 1000 0 false 0 200 Scenario.s0 in
  err (result o) = None /\
  accounts (final o) = accounts Scenario.s0.
Proof.
  intros o. split; [reflexivity|].
  exact (handleCalls_restore_state Sample.hash Sample.canTransfer
           Sample.transfer unit Sample.noPrecompile Sample.runPrecompile
           (Sample.interpreter (mkResult [] 7 0) None)
           Cases.restoring Call 200 100 5 [] 1000 0 false 0 200 Scenario.s0
           eq_refl).
Defined.

(** A reverted run: the call that ends out of gas. *)
Lemma handleCalls_revert_only_on_error_witness :
  let o := Sample.handleCalls (mkResult [] 7 0) (Some ErrOutOfGas)
             Sample.london Call 200 100 5 [] 1000 0 false 0 200
             Scenario.s0 in
  In EvRevertToSnapshot (events o) /\
  (err (result o) <> None \/ RestoreState (config Sample.london) = true) /\
  last (events o) = Some EvRevertToSnapshot.
Proof.
  intros o.
  assert (H : In EvRevertToSnapshot (events o)).
  { apply list_elem_of_In, (bool_decide_unpack _). vm_compute. exact I. }
  split; [exact H|].
  exact (handleCalls_revert_only_on_error Sample.hash Sample.canTransfer
           Sample.transfer unit Sample.noPrecompile Sample.runPrecompile
           (Sample.interpreter (mkResult [] 7 0) (Some ErrOutOfGas))
           Sample.london Call 200 100 5 [] 1000 0 false 0 200 Scenario.s0 H).
Defined.

(** A [DelegateCall] into the contract at 200. *)
Lemma handleCalls_only_Call_transfers_witness :
  let o := Sample.handleCalls (mkResult [] 7 0) None Sample.london
             DelegateCall 200 100 5 [] 1000 0 false 0 200 Scenario.s0 in
  DelegateCall <> Call /\
  Forall (fun ev => movesValue ev = false) (events o).
Proof.
  intros o.
  assert (H : DelegateCall <> Call) by discriminate.
  split; [exact H|].
  exact (handleCalls_only_Call_transfers Sample.hash Sample.canTransfer
           Sample.transfer unit Sample.noPrecompile Sample.runPrecompile
           (Sample.interpreter (mkResult [] 7 0) None)
           Sample.london DelegateCall 200 100 5 [] 1000 0 false 0 200
           Scenario.s0 H).
Defined.

(** A [Call] of zero value to the precompile at 4, where the backend holds
    no account: the precompile runs, and its 985 of the 1000 gas and its
    output are returned. *)
Lemma handleCalls_precompile_witness :
  let o := Cases.handleCallsWithPrecompile Sample.london Call 4 100 0
             [Byte.x01] 1000 0 false 0 4 Scenario.s0 in
  IBS.Exist Scenario.s0 4 = false /\
  result o = mkCallResult [Byte.x01] 985 0 zeroAddress None /\
  IBS.Exist (final o) 4 = true.
Proof.
  intros o. split; [reflexivity|].
  destruct (handleCalls_precompile Sample.hash Sample.canTransfer
              Sample.transfer unit Cases.precompileAt4 Cases.runIdentity
              (Sample.interpreter emptyResult None) Sample.london
              Call 4 100 0 [Byte.x01] 1000 0 false 0 4 Scenario.s0 tt
              eq_refl eq_refl) as (Hr & _ & _).
  split; [exact Hr|]. vm_compute. reflexivity.
Defined.

(** A [DelegateCall] into the contract at 200 is run as a [Call]. *)
Lemma handleCalls_interpreted_witness :
  let o := Sample.handleCalls (mkResult [] 7 0) None Sample.london
             DelegateCall 200 100 5 [] 1000 0 false 0 200 Scenario.s0 in
  In (EvExecute Call 200 (mkResult [] 7 0) None) (events o) /\
  result o = mkCallResult [] 7 0 zeroAddress None.
Proof.
  intros o.
  assert (H : In (EvExecute Call 200 (mkResult [] 7 0) None) (events o)).
  { apply list_elem_of_In, (bool_decide_unpack _). vm_compute. exact I. }
  split; [exact H|].
  destruct (handleCalls_interpreted Sample.hash Sample.canTransfer
              Sample.transfer unit Sample.noPrecompile Sample.runPrecompile
              (Sample.interpreter (mkResult [] 7 0) None)
              Sample.london DelegateCall 200 100 5 [] 1000 0 false 0 200
              Scenario.s0 Call 200 (mkResult [] 7 0) None H)
    as (_ & _ & _ & _ & Hr & _).
  exact Hr.
Defined.

(** A [Call] of value 5 into the contract at 200: the transfer follows the
    snapshot, no account is created. *)
Lemma handleCalls_trace_witness :
  let o := Sample.handleCalls (mkResult [] 7 0) None Sample.london Call 200
             100 5 [] 1000 0 false 0 200 Scenario.s0 in
  exists body tail,
    events o = EvSnapshot :: [EvTransfer 100 200 5 false] ++ body ++ tail /\
    (tail = [] \/ tail = [EvRevertToSnapshot]).
Proof.
  intros o.
  destruct (handleCalls_trace Sample.hash Sample.canTransfer
              Sample.transfer unit Sample.noPrecompile Sample.runPrecompile
              (Sample.interpreter (mkResult [] 7 0) None)
              Sample.london Call 200 100 5 [] 1000 0 false 0 200 Scenario.s0
              eq_refl) as [_ H].
  destruct (H eq_refl) as (body & tail & Hev & _ & Ht).
  exists body, tail. split; [exact Hev|exact Ht].
Defined.

(** ** Creations *)

Lemma GetCode_SetCode_eq K s r c : IBS.GetCode (IBS.SetCode K s r c) r = c.
Proof.
  unfold IBS.GetCode, IBS.SetCode, IBS.setAccount. cbn.
  rewrite lookup_insert_eq. reflexivity.
Qed.

Lemma GetCodeHash_SetCode_eq K s r c :
  IBS.GetCodeHash (IBS.SetCode K s r c) r = K c.
Proof.
  unfold IBS.GetCodeHash, IBS.SetCode, IBS.setAccount. cbn.
  rewrite lookup_insert_eq. reflexivity.
Qed.

Lemma startsWithEF_len b : startsWithEF b = true -> (1 <=? Host.len b) = true.
Proof.
  destruct b as [|x b]; [discriminate|]. intros _.
  apply Z.leb_le. unfold Host.len. cbn [length]. lia.
Qed.

(** Unfold the creation path of [Call]. *)
Ltac creation_unfold :=
  unfold Host.Call, bind, query, invoke, update, pure, SetBytes32; cbn.

(** *** The checks on the output *)

Lemma codeChecked_passes params h res :
  exceedsSizeLimit params h (Output res) = false ->
  IsLondon (rules h) && startsWithEF (Output res) = false ->
  codeChecked params h res None = None.
Proof.
  unfold codeChecked, sizeChecked, exceedsSizeLimit, sizeLimitActive.
  intros Hsz Hef.
  destruct (IsSpuriousDragon (rules h)), (IsAura (rules h)),
    (HasEip3860 (config h) (rules h)),
    (MaxCodeSize params <? Host.len (Output res)); cbn in *;
    try discriminate.
  all: destruct (IsLondon (rules h)), (1 <=? Host.len (Output res)),
         (startsWithEF (Output res)); cbn in *; congruence.
Qed.

Lemma codeChecked_invalid_code params h res :
  IsLondon (rules h) = true ->
  exceedsSizeLimit params h (Output res) = false ->
  startsWithEF (Output res) = true ->
  codeChecked params h res None = Some ErrInvalidCode.
Proof.
  unfold codeChecked, sizeChecked, exceedsSizeLimit, sizeLimitActive.
  intros HL Hsz Hef. rewrite HL, Hef, (startsWithEF_len _ Hef).
  destruct (IsSpuriousDragon (rules h)), (IsAura (rules h)),
    (HasEip3860 (config h) (rules h)),
    (MaxCodeSize params <? Host.len (Output res)); cbn in *;
    congruence.
Qed.

Lemma storesCode_creationError params h res e :
  storesCode params h res e = true -> creationError params h res e = None.
Proof.
  unfold storesCode, creationError. intros [Hn Hg]%andb_true_iff.
  rewrite Hn, Hg. destruct (codeChecked params h res e); [discriminate|].
  reflexivity.
Qed.

Lemma creationReverts_error h err :
  err <> None ->
  IsHomestead (rules h) = true \/ err <> Some ErrCodeStoreOutOfGas ->
  creationReverts h err = true.
Proof.
  unfold creationReverts. intros Herr Hh.
  destruct err as [e|]; [|congruence]. cbn.
  destruct (IsHomestead (rules h)); [reflexivity|]. cbn.
  destruct Hh as [|Hne]; [discriminate|].
  destruct (VMError_eqb e ErrCodeStoreOutOfGas) eqn:He; [|reflexivity].
  apply VMError_eqb_eq in He. congruence.
Qed.

Lemma creationPrologue_events h sender r value n ev :
  In ev (creationPrologue h sender r value n) ->
  ev = EvSetNonce sender (to_uint64 (n + 1)) \/
  ev = EvAddAddressToAccessList r \/ ev = EvSnapshot \/
  ev = EvCreateAccount r true \/ ev = EvSetNonce r 1 \/
  ev = EvTransfer sender r value false.
Proof.
  unfold creationPrologue.
  destruct (IsBerlin (rules h)), (IsSpuriousDragon (rules h)); cbn;
    intuition.
Qed.

Lemma last_app_cons {A : Type} (l : list A) x l' :
  last (l ++ x :: l') = last (x :: l').
Proof.
  induction l as [|y l IH]; [reflexivity|].
  cbn [app]. rewrite <- IH. destruct l; reflexivity.
Qed.

Section CreationFacts.

Variable K : bytes -> Hash.
Variable CreateAddress : Address -> Z -> Address.
Variable CreateAddress2 : Address -> Hash -> Hash -> Address.
Variable CanTransfer : IntraBlockState -> Address -> uint256 -> bool.
Variable Transfer :
  IntraBlockState -> Address -> Address -> uint256 -> bool -> IntraBlockState.
Variable PrecompiledContract : Type.
Variable Precompile : Address -> option PrecompiledContract.
Variable RunPrecompiledContract :
  PrecompiledContract -> bytes -> Z -> bytes * Z * option VMError.
Variable Execute :
  CallKind -> bool -> Z -> Z -> Address -> Address -> bytes -> Hash -> bytes ->
  IntraBlockState -> (Result * option VMError) * IntraBlockState.
Variable params : Params.
Variable h : HostImpl.

Local Abbreviation hostCall :=
  (Host.Call K CreateAddress CreateAddress2 CanTransfer Transfer
     PrecompiledContract Precompile RunPrecompiledContract Execute params h).
Local Abbreviation derivedRecipient :=
  (derivedRecipient K CreateAddress CreateAddress2).
Local Abbreviation creationOutcome := (creationOutcome K params h).

(** The run of a creation: either it returns before its snapshot, without
    running the interpreter, or it runs the interpreter once and ends as
    the checks on the result decide. *)
Lemma Call_create_run kind recipient sender value input gas depth static
  salt codeAddress s :
  is_creation kind = true ->
  let o := hostCall kind recipient sender value input gas depth static salt
             codeAddress s in
  let r := derivedRecipient kind recipient sender salt input s in
  (~ In EvSnapshot (events o) /\
   forall k r' res e, ~ In (EvExecute k r' res e) (events o)) \/
  exists res e s6,
    creationOutcome kind sender r (SetBytes32 value) s res e s6 o.
Proof.
  intros Hk o r. subst r. as_post o.
  unfold creationOutcome, creationPrologue, SetBytes32, creationGasLeft,
    creationError, creationReverts, storesCode, codeChecked, sizeChecked,
    createDataGas, startsWithEF.
  destruct kind; try discriminate Hk; unfold derivedRecipient;
    creation_unfold.
  all: repeat (lazymatch goal with
               | |- context [Execute] => idtac
               end; run_step; cbn).
  all: try solve [unfold post; cbn; left;
                  split; [intros HIn|intros k r' res e HIn];
                  event_cases HIn].
  all: match goal with
       | H : Execute ?a1 ?a2 ?a3 ?a4 ?a5 ?a6 ?a7 ?a8 ?a9 ?a10 = (?p, ?s6)
         |- _ => destruct p as [res e]; unfold post; right; exists res, e, s6
       end.
  all: try match goal with
           | H : IBS.AddAddressToAccessList _ _ = _ |- _ =>
               apply accounts_AddAddressToAccessList in H as (Ha & _ & _)
           end.
  all: unfold IBS.Snapshot; rewrite ?Ha.
  all: match goal with
       | |- result ?X = _ /\ _ => pattern X
       end;
       match goal with
       | |- ?P ?X => change (post P X)
       end.
  all: cbn.
  all: run_steps; unfold post; cbn.
  all: repeat split; reflexivity.
Qed.

(** The interpreter's run of a creation is the one its trace shows. *)
Lemma Call_create_interpreted kind recipient sender value input gas depth
  static salt codeAddress s k r' res e :
  is_creation kind = true ->
  let o := hostCall kind recipient sender value input gas depth static salt
             codeAddress s in
  let r := derivedRecipient kind recipient sender salt input s in
  In (EvExecute k r' res e) (events o) ->
  k = kind /\ r' = r /\
  exists s6, creationOutcome kind sender r (SetBytes32 value) s res e s6 o.
Proof.
  intros Hk o r HIn.
  destruct (Call_create_run kind recipient sender value input gas depth
              static salt codeAddress s Hk)
    as [[_ Hno]|(res' & e' & s6 & Ho)].
  - destruct (Hno _ _ _ _ HIn).
  - fold o r in Ho.
    assert (Heq : EvExecute kind r res' e' = EvExecute k r' res e).
    { destruct Ho as (_ & Hev & _). rewrite Hev in HIn.
      apply in_app_or in HIn as [HIn|HIn].
      - apply creationPrologue_events in HIn.
        event_cases HIn. discriminate HIn.
      - destruct (storesCode params h res' e'),
          (creationReverts h (creationError params h res' e'));
          event_cases HIn; assumption. }
    injection Heq as <- <- <- <-.
    split; [reflexivity|]. split; [reflexivity|]. exists s6. exact Ho.
Qed.

(** X15. The operations of a creation that acquires its snapshot, in their
    order: the increment of the sender's nonce, under Berlin the recipient
    put on the access list, the snapshot, the creation of the recipient's
    account, from Spurious Dragon on its nonce set to 1, the transfer, which
    never bails out, and one run of the interpreter; then nothing more, or
    the code stored, or the revert, and never both of these. *)
Theorem Call_create_trace kind recipient sender value input gas depth static
  salt codeAddress s :
  is_creation kind = true ->
  let o := hostCall kind recipient sender value input gas depth static salt
             codeAddress s in
  let r := derivedRecipient kind recipient sender salt input s in
  In EvSnapshot (events o) ->
  exists res e t,
    events o =
      creationPrologue h sender r (SetBytes32 value) (IBS.GetNonce s sender)
      ++ EvExecute kind r res e :: t /\
    creationEpilogue r res t /\
    output (result o) = Output res.
Proof.
  intros Hk o r HIn.
  destruct (Call_create_run kind recipient sender value input gas depth
              static salt codeAddress s Hk)
    as [[Hno _]|(res & e & s6 & Hres & Hev & _)].
  - destruct (Hno HIn).
  - fold o r in Hres, Hev. eexists res, e, _.
    split; [exact Hev|]. split; [|rewrite Hres; reflexivity].
    unfold creationEpilogue.
    destruct (storesCode params h res e) eqn:Hst.
    + rewrite (storesCode_creationError _ _ _ _ Hst). cbn. auto.
    + destruct (creationReverts h (creationError params h res e)); cbn;
        auto.
Qed.

(** X16. EIP-3541. Under London, a creation whose interpreter run succeeds
    with an output that starts with 0xEF, and that the size limit lets pass,
    fails with [ErrInvalidCode]: no code is stored, the creation is
    reverted, and the output and the gas left are still the interpreter's. *)
Theorem Call_create_invalid_code kind recipient sender value input gas depth
  static salt codeAddress s res :
  is_creation kind = true ->
  IsLondon (rules h) = true ->
  let o := hostCall kind recipient sender value input gas depth static salt
             codeAddress s in
  let r := derivedRecipient kind recipient sender salt input s in
  In (EvExecute kind r res None) (events o) ->
  exceedsSizeLimit params h (Output res) = false ->
  startsWithEF (Output res) = true ->
  err (result o) = Some ErrInvalidCode /\
  output (result o) = Output res /\
  gasLeft (result o) = GasLeft res /\
  (forall c, ~ In (EvSetCode r c) (events o)) /\
  last (events o) = Some EvRevertToSnapshot.
Proof.
  intros Hk HL o r HIn Hsz Hef.
  destruct (Call_create_interpreted kind recipient sender value input gas
              depth static salt codeAddress s _ _ _ _ Hk HIn)
    as (_ & _ & s6 & Hres & Hev & _).
  fold o r in Hres, Hev.
  pose proof (codeChecked_invalid_code params h res HL Hsz Hef) as Hc.
  unfold creationGasLeft, creationError, storesCode in Hres, Hev.
  rewrite Hc in Hres, Hev. cbn in Hres, Hev.
  rewrite orb_true_r in Hev. cbn in Hev.
  rewrite Hres, Hev. repeat split.
  - intros c [HP|HP]%in_app_or.
    + apply creationPrologue_events in HP. event_cases HP. discriminate HP.
    + event_cases HP.
  - rewrite last_app_cons. reflexivity.
Qed.

(** X17. A creation whose interpreter run succeeds with an output that
    passes the size limit and EIP-3541, and whose gas left covers the cost
    of storing the output, succeeds: the cost is taken from the gas left,
    and the derived recipient holds the output as its code, under the hash
    of the output. Storing the code is the last operation. *)
Theorem Call_create_stores_code kind recipient sender value input gas depth
  static salt codeAddress s res :
  is_creation kind = true ->
  let o := hostCall kind recipient sender value input gas depth static salt
             codeAddress s in
  let r := derivedRecipient kind recipient sender salt input s in
  In (EvExecute kind r res None) (events o) ->
  exceedsSizeLimit params h (Output res) = false ->
  IsLondon (rules h) && startsWithEF (Output res) = false ->
  createDataGas params (Output res) <= GasLeft res ->
  result o =
    mkCallResult (Output res)
      (to_int64 (GasLeft res - createDataGas params (Output res)))
      (GasRefund res) zeroAddress None /\
  IBS.GetCode (final o) r = Output res /\
  IBS.GetCodeHash (final o) r = K (Output res) /\
  last (events o) = Some (EvSetCode r (Output res)).
Proof.
  intros Hk o r HIn Hsz Hef Hgas.
  destruct (Call_create_interpreted kind recipient sender value input gas
              depth static salt codeAddress s _ _ _ _ Hk HIn)
    as (_ & _ & s6 & Hres & Hev & Hfin).
  fold o r in Hres, Hev, Hfin.
  pose proof (codeChecked_passes params h res Hsz Hef) as Hc.
  apply Z.leb_le in Hgas.
  unfold creationGasLeft, creationError, storesCode in Hres, Hev, Hfin.
  rewrite Hc, Hgas in Hres, Hev, Hfin. cbn in Hres, Hev, Hfin.
  rewrite Hres, Hev, Hfin. repeat split.
  - apply GetCode_SetCode_eq.
  - apply GetCodeHash_SetCode_eq.
  - rewrite last_app_cons. reflexivity.
Qed.

(** X18. A creation whose interpreter run succeeds with an output that
    passes the size limit and EIP-3541, but whose gas left does not cover
    the cost of storing the output, stores no code and returns the
    interpreter's gas left. From Homestead on it fails with
    [ErrCodeStoreOutOfGas] and is reverted; before Homestead it succeeds and
    is not reverted. *)
Theorem Call_create_code_store_out_of_gas kind recipient sender value input
  gas depth static salt codeAddress s res :
  is_creation kind = true ->
  let o := hostCall kind recipient sender value input gas depth static salt
             codeAddress s in
  let r := derivedRecipient kind recipient sender salt input s in
  In (EvExecute kind r res None) (events o) ->
  exceedsSizeLimit params h (Output res) = false ->
  IsLondon (rules h) && startsWithEF (Output res) = false ->
  GasLeft res < createDataGas params (Output res) ->
  (forall c, ~ In (EvSetCode r c) (events o)) /\
  output (result o) = Output res /\
  gasLeft (result o) = GasLeft res /\
  (IsHomestead (rules h) = true ->
   err (result o) = Some ErrCodeStoreOutOfGas /\
   last (events o) = Some EvRevertToSnapshot) /\
  (IsHomestead (rules h) = false ->
   err (result o) = None /\ ~ In EvRevertToSnapshot (events o)).
Proof.
  intros Hk o r HIn Hsz Hef Hgas.
  destruct (Call_create_interpreted kind recipient sender value input gas
              depth static salt codeAddress s _ _ _ _ Hk HIn)
    as (_ & _ & s6 & Hres & Hev & _).
  fold o r in Hres, Hev.
  pose proof (codeChecked_passes params h res Hsz Hef) as Hc.
  apply Z.leb_gt in Hgas.
  unfold creationGasLeft, creationError, creationReverts, storesCode
    in Hres, Hev.
  rewrite Hc, Hgas in Hres, Hev. cbn in Hres, Hev.
  rewrite Hres, Hev.
  destruct (IsHomestead (rules h)); cbn; repeat split; try discriminate.
  all: try (rewrite last_app_cons; reflexivity).
  all: intros; intros [HP|HP]%in_app_or;
    [apply creationPrologue_events in HP; event_cases HP; discriminate HP
    |event_cases HP].
Qed.

(** X19. A creation that has acquired its snapshot and returns an error,
    other than [ErrCodeStoreOutOfGas] before Homestead, ends with the revert
    to that snapshot: the accounts are those the increment of the sender's
    nonce left. *)
Theorem Call_create_failure_restores kind recipient sender value input gas
  depth static salt codeAddress s :
  is_creation kind = true ->
  let o := hostCall kind recipient sender value input gas depth static salt
             codeAddress s in
  In EvSnapshot (events o) ->
  err (result o) <> None ->
  IsHomestead (rules h) = true \/
  err (result o) <> Some ErrCodeStoreOutOfGas ->
  accounts (final o) =
    accounts (IBS.SetNonce K s sender (to_uint64 (IBS.GetNonce s sender + 1)))
  /\ last (events o) = Some EvRevertToSnapshot.
Proof.
  intros Hk o HIn Herr Hh.
  destruct (Call_create_run kind recipient sender value input gas depth
              static salt codeAddress s Hk)
    as [[Hno _]|(res & e & s6 & Hres & Hev & Hfin)].
  - destruct (Hno HIn).
  - fold o in Hres, Hev, Hfin.
    rewrite Hres in Herr, Hh. cbn in Herr, Hh.
    rewrite (creationReverts_error h _ Herr Hh) in Hev, Hfin.
    rewrite Hev, Hfin. split; [reflexivity|].
    destruct (storesCode params h res e); cbn; rewrite last_app_cons;
      reflexivity.
Qed.

(** X20. A creation returns without any operation on the backend exactly
    when its balance check or its nonce check rejects it; the balance check
    comes first, applies to a zero value too and knows no bailout. The
    backend is then as it was and all the gas is handed back. *)
Theorem Call_create_untouched kind recipient sender value input gas depth
  static salt codeAddress s :
  is_creation kind = true ->
  let o := hostCall kind recipient sender value input gas depth static salt
             codeAddress s in
  let n := IBS.GetNonce s sender in
  (events o = [] <->
   CanTransfer s sender (SetBytes32 value) = false \/
   to_uint64 (n + 1) < n) /\
  (CanTransfer s sender (SetBytes32 value) = false ->
   err (result o) = Some ErrInsufficientBalance) /\
  (events o = [] ->
   final o = s /\ output (result o) = [] /\ gasLeft (result o) = gas).
Proof.
  intros Hk o n. subst n. as_post o. unfold SetBytes32.
  destruct kind; try discriminate Hk; creation_unfold.
  all: destruct (CanTransfer s sender value); cbn;
    [|unfold post; cbn; repeat split; auto; discriminate].
  all: destruct (to_uint64 (IBS.GetNonce s sender + 1)
                 <? IBS.GetNonce s sender) eqn:Hn; cbn;
    [apply Z.ltb_lt in Hn; unfold post; cbn; repeat split; auto;
     discriminate|].
  all: apply Z.ltb_ge in Hn.
  all: match goal with
       | |- post _ ?X =>
           rest_of_run X
             ltac:(unfold post; cbn; repeat split; try discriminate;
                   intros [?|?]; try discriminate; lia)
       end.
Qed.

End CreationFacts.

(** ** Creations on explicit inputs

    A [Create] of zero value from sender 100 in [Scenario.s0], with 1000
    gas; the derived recipient is 5699. *)

(** A run that returns one byte of code with 700 gas left. *)
Lemma Call_create_trace_witness :
  let o := Sample.call (mkResult [Byte.x00] 700 0) None Sample.london
             Create 0 100 0 [Byte.x60] 1000 0 false 0 0 Scenario.s0 in
  In EvSnapshot (events o) /\
  exists res e t,
    events o =
      creationPrologue Sample.london 100 5699 0 3
      ++ EvExecute Create 5699 res e :: t /\
    creationEpilogue 5699 res t.
Proof.
  intros o.
  assert (H : In EvSnapshot (events o)).
  { apply list_elem_of_In, (bool_decide_unpack _). vm_compute. exact I. }
  split; [exact H|].
  destruct (Call_create_trace Sample.hash Sample.createAddress
              Sample.createAddress2 Sample.canTransfer Sample.transfer unit
              Sample.noPrecompile Sample.runPrecompile
              (Sample.interpreter (mkResult [Byte.x00] 700 0) None)
              Sample.params Sample.london Create 0 100 0 [Byte.x60] 1000 0
              false 0 0 Scenario.s0 eq_refl H)
    as (res & e & t & Hev & Hep & _).
  exists res, e, t. split; [exact Hev|exact Hep].
Defined.

(** A run that returns the single byte 0xEF. *)
Lemma Call_create_invalid_code_witness :
  let o := Sample.call (mkResult [Byte.xef] 700 0) None Sample.london
             Create 0 100 0 [Byte.x60] 1000 0 false 0 0 Scenario.s0 in
  err (result o) = Some ErrInvalidCode /\
  output (result o) = [Byte.xef] /\
  gasLeft (result o) = 700 /\
  last (events o) = Some EvRevertToSnapshot.
Proof.
  intros o.
  destruct (Call_create_invalid_code Sample.hash Sample.createAddress
              Sample.createAddress2 Sample.canTransfer Sample.transfer unit
              Sample.noPrecompile Sample.runPrecompile
              (Sample.interpreter (mkResult [Byte.xef] 700 0) None)
              Sample.params Sample.london Create 0 100 0 [Byte.x60] 1000 0
              false 0 0 Scenario.s0 (mkResult [Byte.xef] 700 0))
    as (He & Ho & Hg & _ & Hl).
  - reflexivity.
  - reflexivity.
  - apply list_elem_of_In, (bool_decide_unpack _). vm_compute. exact I.
  - reflexivity.
  - reflexivity.
  - split; [exact He|]. split; [exact Ho|]. split; [exact Hg|exact Hl].
Defined.

(** A run that returns one byte of code with 700 gas left: storing it
    costs 200. *)
Lemma Call_create_stores_code_witness :
  let o := Sample.call (mkResult [Byte.x00] 700 0) None Sample.london
             Create 0 100 0 [Byte.x60] 1000 0 false 0 0 Scenario.s0 in
  result o = mkCallResult [Byte.x00] 500 0 zeroAddress None /\
  IBS.GetCode (final o) 5699 = [Byte.x00] /\
  IBS.GetCodeHash (final o) 5699 = Sample.hash [Byte.x00].
Proof.
  intros o.
  destruct (Call_create_stores_code Sample.hash Sample.createAddress
              Sample.createAddress2 Sample.canTransfer Sample.transfer unit
              Sample.noPrecompile Sample.runPrecompile
              (Sample.interpreter (mkResult [Byte.x00] 700 0) None)
              Sample.params Sample.london Create 0 100 0 [Byte.x60] 1000 0
              false 0 0 Scenario.s0 (mkResult [Byte.x00] 700 0))
    as (Hr & Hc & Hh & _).
  - reflexivity.
  - apply list_elem_of_In, (bool_decide_unpack _). vm_compute. exact I.
  - reflexivity.
  - reflexivity.
  - vm_compute. discriminate.
  - split; [exact Hr|]. split; [exact Hc|exact Hh].
Defined.

(** A run that returns one byte of code with 100 gas left, under London
    and before Homestead. *)
Lemma Call_create_code_store_out_of_gas_witness :
  (let o := Sample.call (mkResult [Byte.x00] 100 0) None Sample.london
              Create 0 100 0 [Byte.x60] 1000 0 false 0 0 Scenario.s0 in
   err (result o) = Some ErrCodeStoreOutOfGas /\
   gasLeft (result o) = 100 /\
   last (events o) = Some EvRevertToSnapshot) /\
  (let o := Sample.call (mkResult [Byte.x00] 100 0) None Cases.frontier
              Create 0 100 0 [Byte.x60] 1000 0 false 0 0 Scenario.s0 in
   err (result o) = None /\
   gasLeft (result o) = 100 /\
   ~ In EvRevertToSnapshot (events o)).
Proof.
  split; intros o.
  - destruct (Call_create_code_store_out_of_gas Sample.hash
                Sample.createAddress Sample.createAddress2
                Sample.canTransfer Sample.transfer unit Sample.noPrecompile
                Sample.runPrecompile
                (Sample.interpreter (mkResult [Byte.x00] 100 0) None)
                Sample.params Sample.london Create 0 100 0 [Byte.x60] 1000
                0 false 0 0 Scenario.s0 (mkResult [Byte.x00] 100 0))
      as (_ & _ & Hg & Hh & _).
    + reflexivity.
    + apply list_elem_of_In, (bool_decide_unpack _). vm_compute. exact I.
    + reflexivity.
    + reflexivity.
    + vm_compute. reflexivity.
    + destruct (Hh eq_refl) as [He Hl].
      split; [exact He|]. split; [exact Hg|exact Hl].
  - destruct (Call_create_code_store_out_of_gas Sample.hash
                Sample.createAddress Sample.createAddress2
                Sample.canTransfer Sample.transfer unit Sample.noPrecompile
                Sample.runPrecompile
                (Sample.interpreter (mkResult [Byte.x00] 100 0) None)
                Sample.params Cases.frontier Create 0 100 0 [Byte.x60] 1000
                0 false 0 0 Scenario.s0 (mkResult [Byte.x00] 100 0))
      as (_ & _ & Hg & _ & Hf).
    + reflexivity.
    + apply list_elem_of_In, (bool_decide_unpack _). vm_compute. exact I.
    + reflexivity.
    + reflexivity.
    + vm_compute. reflexivity.
    + destruct (Hf eq_refl) as [He Hn].
      split; [exact He|]. split; [exact Hg|exact Hn].
Defined.

(** A run that ends out of gas: the accounts are those of [Scenario.s0]
    with the sender's nonce 4. *)
Lemma Call_create_failure_restores_witness :
  let o := Sample.call (mkResult [] 0 0) (Some ErrOutOfGas) Sample.london
             Create 0 100 0 [Byte.x60] 1000 0 false 0 0 Scenario.s0 in
  err (result o) = Some ErrOutOfGas /\
  accounts (final o) =
    accounts (IBS.SetNonce Sample.hash Scenario.s0 100 4) /\
  last (events o) = Some EvRevertToSnapshot.
Proof.
  intros o.
  assert (He : err (result o) = Some ErrOutOfGas) by reflexivity.
  split; [exact He|].
  apply (Call_create_failure_restores Sample.hash Sample.createAddress
           Sample.createAddress2 Sample.canTransfer Sample.transfer unit
           Sample.noPrecompile Sample.runPrecompile
           (Sample.interpreter (mkResult [] 0 0) (Some ErrOutOfGas))
           Sample.params Sample.london Create 0 100 0 [Byte.x60] 1000 0
           false 0 0 Scenario.s0 eq_refl).
  - apply list_elem_of_In, (bool_decide_unpack _). vm_compute. exact I.
  - change (err (result o) <> None). rewrite He. discriminate.
  - left. reflexivity.
Defined.

(** A [Create] of value 60 from the balance 50. *)
Lemma Call_create_untouched_witness :
  let o := Sample.call emptyResult None Sample.london Create 0 100 60
             [Byte.x60] 1000 0 false 0 0 Scenario.s0 in
  events o = [] /\
  err (result o) = Some ErrInsufficientBalance /\
  final o = Scenario.s0 /\ gasLeft (result o) = 1000.
Proof.
  intros o.
  destruct (Call_create_untouched Sample.hash Sample.createAddress
              Sample.createAddress2 Sample.canTransfer Sample.transfer unit
              Sample.noPrecompile Sample.runPrecompile
              (Sample.interpreter emptyResult None)
              Sample.params Sample.london Create 0 100 60 [Byte.x60] 1000 0
              false 0 0 Scenario.s0 eq_refl)
    as (Hiff & He & Hs).
  assert (Hev : events o = []) by (apply Hiff; left; reflexivity).
  destruct (Hs Hev) as (Hf & _ & Hg).
  split; [exact Hev|]. split; [exact (He eq_refl)|].
  split; [exact Hf|exact Hg].
Defined.
